(** * QuickSight group resource: identifier parsing and CRUD handlers

    A shallow embedding of [internal/service/quicksight/group.go]: the
    resource schema, the four lifecycle handlers and [GroupParseID],
    together with the small parts of the Go standard library, the AWS SDK
    and the Terraform plugin SDK the file calls. *)

From Stdlib Require Import ZArith Lia Ascii String.
From stdpp Require Import base strings gmap list pretty.

Local Open Scope Z_scope.

(** ** Go strings

    A Go string is a sequence of bytes; [string] (a list of [ascii]) is
    exactly that. [len], slicing and the two functions of package
    [strings] the resource relies on. *)
Module GoStrings.

Definition len (s : string) : Z := Z.of_nat (String.length s).

(** [s[:m]] *)
Definition sliceTo (s : string) (m : Z) : string :=
  String.substring 0 (Z.to_nat m) s.

(** [s[k:]] *)
Definition sliceFrom (s : string) (k : Z) : string :=
  String.substring (Z.to_nat k) (String.length s - Z.to_nat k) s.

(** [strings.Index]: the byte offset of the first occurrence of
    [substr] in [s], or -1. *)
Definition Index (s substr : string) : Z :=
  match String.index 0 substr s with
  | Some m => Z.of_nat m
  | None => -1
  end.

(** [strings.Count] for a non-empty separator: the number of
    non-overlapping occurrences. Every round consumes at least one
    byte, so [String.length s] rounds are enough. *)
Fixpoint Count_loop (rounds : nat) (s substr : string) : Z :=
  match rounds with
  | O => 0
  | S rounds' =>
      let i := Index s substr in
      if i <? 0 then 0
      else 1 + Count_loop rounds' (sliceFrom s (i + len substr)) substr
  end.

Definition Count (s substr : string) : Z :=
  Count_loop (String.length s) s substr.

(** The loop of [genSplit]:
    [for i < n { m := Index(s, sep); if m < 0 { break };
                 a[i] = s[:m]; s = s[m+len(sep):]; i++ }; a[i] = s]
    with [steps] the number of iterations still allowed. *)
Fixpoint genSplit_loop (steps : nat) (s sep : string) : list string :=
  match steps with
  | O => [s]
  | S steps' =>
      let m := Index s sep in
      if m <? 0 then [s]
      else sliceTo s m :: genSplit_loop steps' (sliceFrom s (m + len sep)) sep
  end.

(** [strings.SplitN(s, sep, n)] for a non-empty [sep]. (For an empty
    separator Go splits after each UTF-8 sequence; the resource only
    ever splits on a slash and that branch is left out.) *)
Definition SplitN (s sep : string) (n : Z) : list string :=
  if n =? 0 then []
  else
    let n := if n <? 0 then Count s sep + 1 else n in
    let n := if n >? len s + 1 then len s + 1 else n in
    genSplit_loop (Z.to_nat (n - 1)) s sep.

End GoStrings.

(** ** Errors

    A Go [error] is an interface value; the two dynamic types that occur
    here are the plain error of [fmt.Errorf] and the AWS SDK's
    [awserr.Error], which carries a service error code and whose text
    is the code, a colon and the message. A [nil] error is [None]. *)
Inductive error : Type :=
| errorString (s : string)
| awsError (code message : string).

Definition Error (e : error) : string :=
  match e with
  | errorString s => s
  | awsError code message => code +:+ ": " +:+ message
  end.

(** ** fmt

    [fmt.Sprintf] for the two verbs that occur, [%s] in the resource and
    [%d] in the length validator. An operand of either verb is rendered
    by its dynamic type: a string as itself, an error through its
    [Error] method, an integer in decimal. *)
Module fmt.

Inductive arg : Type :=
| Str (s : string)
| Err (e : error)
| Int (z : Z).

Definition render (a : arg) : string :=
  match a with
  | Str s => s
  | Err e => Error e
  | Int z => pretty z
  end.

Fixpoint Sprintf (format : string) (a : list arg) : string :=
  match format with
  | EmptyString => EmptyString
  | String "%" (String "s" rest) =>
      match a with
      | x :: a' => render x +:+ Sprintf rest a'
      | [] => "%!s(MISSING)" +:+ Sprintf rest []
      end
  | String "%" (String "d" rest) =>
      match a with
      | x :: a' => render x +:+ Sprintf rest a'
      | [] => "%!d(MISSING)" +:+ Sprintf rest []
      end
  | String c rest => String c (Sprintf rest a)
  end.

Definition Errorf (format : string) (a : list arg) : error :=
  errorString (Sprintf format a).

End fmt.

(** ** diag: the diagnostics a handler returns *)
Module diag.

Inductive Severity : Type := Error | Warning.

Record Diagnostic : Type := {
  Severity_ : Severity;
  Summary : string;
  Detail : string
}.

Definition Diagnostics : Type := list Diagnostic.

Definition isError (x : Diagnostic) : bool :=
  match Severity_ x with Error => true | Warning => false end.

Definition HasError (diags : Diagnostics) : bool := existsb isError diags.

End diag.

(** Modelled from the spec: [sdkdiag.AppendErrorf] lives in
    [internal/errs/sdkdiag]; a failure is wrapped with an
    operation-specific message (the formatted text) and surfaced as one
    more diagnostic of error severity. *)
Module sdkdiag.

Definition AppendErrorf (diags : diag.Diagnostics) (format : string)
    (a : list fmt.arg) : diag.Diagnostics :=
  diags ++ [ {| diag.Severity_ := diag.Error;
                diag.Summary := fmt.Sprintf format a;
                diag.Detail := EmptyString |} ].

End sdkdiag.

(** ** aws, tfawserr *)
Module aws.

(** [aws.String]: a pointer to the string. *)
Definition String (s : string) : option string := Some s.

(** [aws.StringValue]: the string pointed to, or the empty string for
    a nil pointer. *)
Definition StringValue (p : option string) : string := default EmptyString p.

End aws.

Module tfawserr.

(** [tfawserr.ErrCodeEquals(err, code)]: [err] is an AWS error whose
    code is [code]; false for nil and for every other error. *)
Definition ErrCodeEquals (err : option error) (code : string) : bool :=
  match err with
  | Some (awsError c _) => String.eqb c code
  | _ => false
  end.

End tfawserr.

(** ** regexp and validation

    The one pattern of the file has the shape [^[items]*$]: a bracket
    class under a star, anchored at both ends, so it matches a string
    exactly when every byte is in the class (a byte above 127 belongs to
    no ASCII class). *)
Module regexp.

Inductive classItem : Type :=
| Range (lo hi : ascii)
| Single (c : ascii).

Definition inItem (c : ascii) (it : classItem) : bool :=
  match it with
  | Range lo hi =>
      (N_of_ascii lo <=? N_of_ascii c)%N && (N_of_ascii c <=? N_of_ascii hi)%N
  | Single x => Ascii.eqb c x
  end.

Definition inClass (items : list classItem) (c : ascii) : bool :=
  existsb (inItem c) items.

Definition MatchString (items : list classItem) (s : string) : bool :=
  forallb (inClass items) (list_ascii_of_string s).

End regexp.

Module validation.

(** [schema.SchemaValidateFunc] at a string attribute: the value and
    the attribute's key in, warnings and errors out. *)
Definition SchemaValidateFunc : Type :=
  string -> string -> list string * list error.

Definition StringLenBetween (min max : Z) : SchemaValidateFunc :=
  fun v k =>
    if (GoStrings.len v <? min) || (GoStrings.len v >? max)
    then ([], [fmt.Errorf "expected length of %s to be in the range (%d - %d), got %s"
                 [fmt.Str k; fmt.Int min; fmt.Int max; fmt.Str v]])
    else ([], []).

(** [validation.StringMatch] with a message of its own, as at its one
    use here (without one the SDK quotes the pattern instead). *)
Definition StringMatch (r : list regexp.classItem) (message : string)
  : SchemaValidateFunc :=
  fun v k =>
    if negb (regexp.MatchString r v)
    then ([], [fmt.Errorf "invalid value for %s (%s)" [fmt.Str k; fmt.Str message]])
    else ([], []).

(** [validation.All]: every validator runs, their output is
    concatenated. *)
Definition All (validators : list SchemaValidateFunc) : SchemaValidateFunc :=
  fun v k =>
    fold_left
      (fun acc f =>
         let '(ws, es) := f v k in (fst acc ++ ws, snd acc ++ es))
      validators ([], []).

End validation.

(** ** schema: attribute schemas and the state handle *)
Module schema.

Inductive ValueType : Type := TypeString.

Record Schema : Type := {
  Type_ : ValueType;
  Optional : bool;
  Required : bool;
  Computed : bool;
  ForceNew : bool;
  Default : option string;
  ValidateFunc : option validation.SchemaValidateFunc
}.

(** [*schema.ResourceData]: the schema it is bound to, the identifier,
    the new-resource mark and the attribute values (configuration and
    state merged with what the handler has set so far). *)
Record ResourceData : Type := {
  schema_ : gmap string Schema;
  id : string;
  isNew : bool;
  attrs : gmap string string
}.

Definition Id (d : ResourceData) : string := id d.

Definition SetId (d : ResourceData) (v : string) : ResourceData :=
  {| schema_ := schema_ d; id := v; isNew := isNew d; attrs := attrs d |}.

Definition IsNewResource (d : ResourceData) : bool := isNew d.

Definition MarkNewResource (d : ResourceData) : ResourceData :=
  {| schema_ := schema_ d; id := id d; isNew := true; attrs := attrs d |}.

(** [d.Get(key)]: the value if there is one, else the schema's
    default, else the zero value of the type. *)
Definition Get (d : ResourceData) (key : string) : string :=
  match attrs d !! key with
  | Some v => v
  | None =>
      match schema_ d !! key with
      | Some s => default EmptyString (Default s)
      | None => EmptyString
      end
  end.

(** [d.GetOk(key)]: the value, and whether it is set to something
    other than the zero value. *)
Definition GetOk (d : ResourceData) (key : string) : string * bool :=
  let v := Get d key in (v, negb (String.eqb v EmptyString)).

(** [d.Set(key, value)] with a string or a pointer to a string ([None]
    is the nil pointer, stored as the empty string). A key outside the
    schema is an error, which every caller in the file drops, and the
    data is left as it was. *)
Definition Set_ (d : ResourceData) (key : string) (value : option string)
  : ResourceData :=
  match schema_ d !! key with
  | Some _ =>
      {| schema_ := schema_ d; id := id d; isNew := isNew d;
         attrs := <[key := aws.StringValue value]> (attrs d) |}
  | None => d
  end.

End schema.

(** ** quicksight: the request and response shapes of the SDK client *)
Module quicksight.

Definition ErrCodeResourceNotFoundException : string :=
  "ResourceNotFoundException".

Record Group : Type := {
  Arn : option string;
  Description : option string;
  GroupName : option string;
  PrincipalId : option string
}.

(** [CreateGroupInput] and [UpdateGroupInput] have the same four
    fields, [DescribeGroupInput] and [DeleteGroupInput] the same
    three. *)
Record CreateGroupInput : Type := {
  Create_AwsAccountId : option string;
  Create_Description : option string;
  Create_GroupName : option string;
  Create_Namespace : option string
}.

Record DescribeGroupInput : Type := {
  Describe_AwsAccountId : option string;
  Describe_GroupName : option string;
  Describe_Namespace : option string
}.

Record UpdateGroupInput : Type := {
  Update_AwsAccountId : option string;
  Update_Description : option string;
  Update_GroupName : option string;
  Update_Namespace : option string
}.

Record DeleteGroupInput : Type := {
  Delete_AwsAccountId : option string;
  Delete_GroupName : option string;
  Delete_Namespace : option string
}.

(** The outputs: [Group] is a pointer, nil unless the service filled
    it in. *)
Record CreateGroupOutput : Type := { Create_Group : option Group }.
Record DescribeGroupOutput : Type := { Describe_Group : option Group }.
Record UpdateGroupOutput : Type := { Update_Group : option Group }.
Record DeleteGroupOutput : Type := { Delete_Status : option Z }.

(** One constructor per client method the file calls. *)
Inductive Request : Type :=
| CreateGroupWithContext (input : CreateGroupInput)
| DescribeGroupWithContext (input : DescribeGroupInput)
| UpdateGroupWithContext (input : UpdateGroupInput)
| DeleteGroupWithContext (input : DeleteGroupInput).

(** What the method returns: the output and the error. *)
Definition Response (r : Request) : Type :=
  match r with
  | CreateGroupWithContext _ => CreateGroupOutput * option error
  | DescribeGroupWithContext _ => DescribeGroupOutput * option error
  | UpdateGroupWithContext _ => UpdateGroupOutput * option error
  | DeleteGroupWithContext _ => DeleteGroupOutput * option error
  end%type.

End quicksight.

(** Modelled from the spec: [conns.AWSClient] lives in [internal/conns];
    the handlers read the provider's resolved account from it and obtain
    the shared QuickSight client, whose calls are the [Request]s
    above. *)
Module conns.

Record AWSClient : Type := { AccountID : string }.

End conns.

(** ** Handler programs

    A handler runs against a remote service this file knows nothing
    about: it is a tree that returns, panics (a nil pointer
    dereference), or issues one client call and goes on with the
    answer. *)
Inductive Prog (A : Type) : Type :=
| Ret (a : A)
| Panic
| Call (r : quicksight.Request) (k : quicksight.Response r -> Prog A).

Arguments Ret {A} a.
Arguments Panic {A}.
Arguments Call {A} r k.

Fixpoint bind {A B : Type} (p : Prog A) (f : A -> Prog B) : Prog B :=
  match p with
  | Ret a => f a
  | Panic => Panic
  | Call r k => Call r (fun x => bind (k x) f)
  end.

#[global] Instance Prog_ret : MRet Prog := @Ret.
#[global] Instance Prog_bind : MBind Prog := fun A B f p => bind p f.

Definition call (r : quicksight.Request) : Prog (quicksight.Response r) :=
  Call r Ret.

(** ** The resource *)

Definition DefaultGroupNamespace : string := "default".

(** The character class of the namespace pattern,
    [^[a-zA-Z0-9._-]*$]. *)
Definition namespacePattern : list regexp.classItem :=
  [ regexp.Range "a" "z"; regexp.Range "A" "Z"; regexp.Range "0" "9";
    regexp.Single "."; regexp.Single "_"; regexp.Single "-" ].

(** The map [SchemaFunc] returns. *)
Definition SchemaFunc : gmap string schema.Schema :=
  <["arn" :=
      {| schema.Type_ := schema.TypeString;
         schema.Optional := false; schema.Required := false;
         schema.Computed := true; schema.ForceNew := false;
         schema.Default := None; schema.ValidateFunc := None |}]>
  (<["aws_account_id" :=
      {| schema.Type_ := schema.TypeString;
         schema.Optional := true; schema.Required := false;
         schema.Computed := true; schema.ForceNew := true;
         schema.Default := None; schema.ValidateFunc := None |}]>
  (<["description" :=
      {| schema.Type_ := schema.TypeString;
         schema.Optional := true; schema.Required := false;
         schema.Computed := false; schema.ForceNew := false;
         schema.Default := None; schema.ValidateFunc := None |}]>
  (<["group_name" :=
      {| schema.Type_ := schema.TypeString;
         schema.Optional := false; schema.Required := true;
         schema.Computed := false; schema.ForceNew := true;
         schema.Default := None; schema.ValidateFunc := None |}]>
  (<["namespace" :=
      {| schema.Type_ := schema.TypeString;
         schema.Optional := true; schema.Required := false;
         schema.Computed := false; schema.ForceNew := true;
         schema.Default := Some DefaultGroupNamespace;
         schema.ValidateFunc :=
           Some (validation.All
                   [ validation.StringLenBetween 1 63;
                     validation.StringMatch namespacePattern
                       "must contain only alphanumeric characters, hyphens, underscores, and periods" ]) |}]>
  ∅)))).

Definition part (parts : list string) (i : nat) : string :=
  default EmptyString (parts !! i).

Definition GroupParseID (id : string)
  : string * string * string * option error :=
  let parts := GoStrings.SplitN id "/" 3 in
  if (Z.of_nat (length parts) <? 3)
     || String.eqb (part parts 0) ""
     || String.eqb (part parts 1) ""
     || String.eqb (part parts 2) ""
  then ("", "", "",
        Some (fmt.Errorf
                "unexpected format of ID (%s), expected AWS_ACCOUNT_ID/NAMESPACE/GROUP_NAME"
                [fmt.Str id]))
  else (part parts 0, part parts 1, part parts 2, None).

(** A handler receives the state handle [d] and the provider's client
    [meta]; it hands back [d] as it left it and its diagnostics. *)
Definition Handler : Type :=
  schema.ResourceData -> conns.AWSClient ->
  Prog (schema.ResourceData * diag.Diagnostics).

Definition resourceGroupRead : Handler := fun d meta =>
  let diags : diag.Diagnostics := [] in
  let '(awsAccountID, namespace, groupName, err) := GroupParseID (schema.Id d) in
  match err with
  | Some e =>
      Ret (d, sdkdiag.AppendErrorf diags "reading QuickSight Group (%s): %s"
                [fmt.Str (schema.Id d); fmt.Err e])
  | None =>
      let descOpts :=
        {| quicksight.Describe_AwsAccountId := aws.String awsAccountID;
           quicksight.Describe_Namespace := aws.String namespace;
           quicksight.Describe_GroupName := aws.String groupName |} in
      '(resp, err) ← call (quicksight.DescribeGroupWithContext descOpts);
      if negb (schema.IsNewResource d)
         && tfawserr.ErrCodeEquals err quicksight.ErrCodeResourceNotFoundException
      then
        (* log.Printf of a warning: no effect on the state or the result *)
        let d := schema.SetId d "" in
        Ret (d, diags)
      else
        match err with
        | Some e =>
            Ret (d, sdkdiag.AppendErrorf diags "reading QuickSight Group (%s): %s"
                      [fmt.Str (schema.Id d); fmt.Err e])
        | None =>
            match quicksight.Describe_Group resp with
            | None => Panic
            | Some group =>
                let d := schema.Set_ d "arn" (quicksight.Arn group) in
                let d := schema.Set_ d "aws_account_id" (Some awsAccountID) in
                let d := schema.Set_ d "group_name" (quicksight.GroupName group) in
                let d := schema.Set_ d "description" (quicksight.Description group) in
                let d := schema.Set_ d "namespace" (Some namespace) in
                Ret (d, diags)
            end
        end
  end.

Definition resourceGroupCreate : Handler := fun d meta =>
  let diags : diag.Diagnostics := [] in
  let awsAccountID := conns.AccountID meta in
  let namespace := schema.Get d "namespace" in
  let awsAccountID :=
    let '(v, ok) := schema.GetOk d "aws_account_id" in
    if ok then v else awsAccountID in
  let createOpts :=
    {| quicksight.Create_AwsAccountId := aws.String awsAccountID;
       quicksight.Create_Namespace := aws.String namespace;
       quicksight.Create_GroupName := aws.String (schema.Get d "group_name");
       quicksight.Create_Description :=
         let '(v, ok) := schema.GetOk d "description" in
         if ok then aws.String v else None |} in
  '(resp, err) ← call (quicksight.CreateGroupWithContext createOpts);
  match err with
  | Some e =>
      Ret (d, sdkdiag.AppendErrorf diags "creating QuickSight Group: %s" [fmt.Err e])
  | None =>
      match quicksight.Create_Group resp with
      | None => Panic
      | Some group =>
          let d := schema.SetId d
                     (fmt.Sprintf "%s/%s/%s"
                        [fmt.Str awsAccountID; fmt.Str namespace;
                         fmt.Str (aws.StringValue (quicksight.GroupName group))]) in
          '(d, rdiags) ← resourceGroupRead d meta;
          Ret (d, diags ++ rdiags)
      end
  end.

Definition resourceGroupUpdate : Handler := fun d meta =>
  let diags : diag.Diagnostics := [] in
  let '(awsAccountID, namespace, groupName, err) := GroupParseID (schema.Id d) in
  match err with
  | Some e =>
      Ret (d, sdkdiag.AppendErrorf diags "updating QuickSight Group (%s): %s"
                [fmt.Str (schema.Id d); fmt.Err e])
  | None =>
      let updateOpts :=
        {| quicksight.Update_AwsAccountId := aws.String awsAccountID;
           quicksight.Update_Namespace := aws.String namespace;
           quicksight.Update_GroupName := aws.String groupName;
           quicksight.Update_Description :=
             let '(v, ok) := schema.GetOk d "description" in
             if ok then aws.String v else None |} in
      '(_, err) ← call (quicksight.UpdateGroupWithContext updateOpts);
      match err with
      | Some e =>
          Ret (d, sdkdiag.AppendErrorf diags "updating QuickSight Group %s: %s"
                    [fmt.Str (schema.Id d); fmt.Err e])
      | None =>
          '(d, rdiags) ← resourceGroupRead d meta;
          Ret (d, diags ++ rdiags)
      end
  end.

Definition resourceGroupDelete : Handler := fun d meta =>
  let diags : diag.Diagnostics := [] in
  let '(awsAccountID, namespace, groupName, err) := GroupParseID (schema.Id d) in
  match err with
  | Some e =>
      Ret (d, sdkdiag.AppendErrorf diags "deleting QuickSight Group (%s): %s"
                [fmt.Str (schema.Id d); fmt.Err e])
  | None =>
      let deleteOpts :=
        {| quicksight.Delete_AwsAccountId := aws.String awsAccountID;
           quicksight.Delete_Namespace := aws.String namespace;
           quicksight.Delete_GroupName := aws.String groupName |} in
      '(_, err) ← call (quicksight.DeleteGroupWithContext deleteOpts);
      match err with
      | Some e =>
          if tfawserr.ErrCodeEquals (Some e) quicksight.ErrCodeResourceNotFoundException
          then Ret (d, diags)
          else Ret (d, sdkdiag.AppendErrorf diags "deleting QuickSight Group %s: %s"
                         [fmt.Str (schema.Id d); fmt.Err e])
      | None => Ret (d, diags)
      end
  end.

(** [schema.Resource]: the four handlers, the importer and the schema.
    [ImportStatePassthroughContext] hands the data back as it is: the
    identifier the user supplied is already in it. *)
Record Resource : Type := {
  CreateWithoutTimeout : Handler;
  ReadWithoutTimeout : Handler;
  UpdateWithoutTimeout : Handler;
  DeleteWithoutTimeout : Handler;
  Importer : schema.ResourceData -> list schema.ResourceData;
  Schema : gmap string schema.Schema
}.

Definition ImportStatePassthroughContext (d : schema.ResourceData)
  : list schema.ResourceData := [d].

Definition ResourceGroup : Resource :=
  {| CreateWithoutTimeout := resourceGroupCreate;
     ReadWithoutTimeout := resourceGroupRead;
     UpdateWithoutTimeout := resourceGroupUpdate;
     DeleteWithoutTimeout := resourceGroupDelete;
     Importer := ImportStatePassthroughContext;
     Schema := SchemaFunc |}.

(** ** The plugin SDK around the handlers

    Two steps of the SDK's lifecycle matter to the resource. Validation
    runs the [ValidateFunc] of every configured attribute and turns its
    warnings and errors into diagnostics; creation marks the data as a
    new resource and calls the create handler, and is reached only when
    validation reported no error. *)
Module sdk.

Definition validateAttr (sm : gmap string schema.Schema)
    (kv : string * string) : diag.Diagnostics :=
  match sm !! kv.1 with
  | Some s =>
      match schema.ValidateFunc s with
      | Some f =>
          let '(ws, es) := f kv.2 kv.1 in
          map (fun w => {| diag.Severity_ := diag.Warning;
                           diag.Summary := w; diag.Detail := EmptyString |}) ws
          ++ map (fun e => {| diag.Severity_ := diag.Error;
                              diag.Summary := Error e;
                              diag.Detail := EmptyString |}) es
      | None => []
      end
  | None => []
  end.

Definition Validate (sm : gmap string schema.Schema)
    (config : gmap string string) : diag.Diagnostics :=
  flat_map (validateAttr sm) (map_to_list config).

Definition newData (r : Resource) (config : gmap string string)
  : schema.ResourceData :=
  {| schema.schema_ := Schema r; schema.id := EmptyString;
     schema.isNew := false; schema.attrs := config |}.

Definition ValidateAndCreate (r : Resource) (config : gmap string string)
    (meta : conns.AWSClient) : Prog (schema.ResourceData * diag.Diagnostics) :=
  let diags := Validate (Schema r) config in
  if diag.HasError diags then Ret (newData r config, diags)
  else CreateWithoutTimeout r (schema.MarkNewResource (newData r config)) meta.

End sdk.

(** ** Running a handler against a service

    A service answers each request from its own state [W]. [exec] runs
    a program to its end and reports the outcome, the service's final
    state and the requests it received, in order. *)
Definition Service (W : Type) : Type :=
  forall r : quicksight.Request, W -> quicksight.Response r * W.

Inductive Outcome (A : Type) : Type :=
| Returned (a : A)
| Panicked.

Arguments Returned {A} a.
Arguments Panicked {A}.

Fixpoint exec {W A : Type} (svc : Service W) (p : Prog A) (w : W)
  : Outcome A * W * list quicksight.Request :=
  match p with
  | Ret a => (Returned a, w, [])
  | Panic => (Panicked, w, [])
  | Call r k =>
      let '(x, w1) := svc r w in
      let '(o, w2, t) := exec svc (k x) w1 in
      (o, w2, r :: t)
  end.

(** A service is sound when a describe call that reports no error
    carries a group, as the SDK's outbound contract promises. *)
Definition describeSound {W : Type} (svc : Service W) : Prop :=
  forall input w,
    snd (fst (svc (quicksight.DescribeGroupWithContext input) w)) = None ->
    quicksight.Describe_Group
      (fst (fst (svc (quicksight.DescribeGroupWithContext input) w))) <> None.

(** A test double: a service without state that gives the same four
    answers whatever it is asked. *)
Definition fixedService
    (c : quicksight.CreateGroupOutput * option error)
    (g : quicksight.DescribeGroupOutput * option error)
    (u : quicksight.UpdateGroupOutput * option error)
    (x : quicksight.DeleteGroupOutput * option error) : Service unit :=
  fun r w =>
    (match r as r0 return quicksight.Response r0 with
     | quicksight.CreateGroupWithContext _ => c
     | quicksight.DescribeGroupWithContext _ => g
     | quicksight.UpdateGroupWithContext _ => u
     | quicksight.DeleteGroupWithContext _ => x
     end, w).

(** ** Vocabulary of the specification *)

(** No byte of [s] is a slash. *)
Fixpoint slashFree (s : string) : bool :=
  match s with
  | EmptyString => true
  | String c rest => negb (Ascii.eqb c "/") && slashFree rest
  end.

(** The segments of [s]: the pieces between all its slashes. *)
Fixpoint segments (s : string) : list string :=
  match s with
  | EmptyString => [EmptyString]
  | String c rest =>
      if Ascii.eqb c "/" then EmptyString :: segments rest
      else
        match segments rest with
        | x :: xs => String c x :: xs
        | [] => [String c EmptyString]
        end
  end.

Definition isEmpty (s : string) : bool := String.eqb s EmptyString.

(** [s] consists of exactly three non-empty segments. *)
Definition threeNonEmptySegments (s : string) : bool :=
  match segments s with
  | [a; b; c] => negb (isEmpty a) && negb (isEmpty b) && negb (isEmpty c)
  | _ => false
  end.

(** [s] has fewer than two slashes, or an empty first or second segment,
    or nothing after its second slash. *)
Definition malformedID (s : string) : bool :=
  match segments s with
  | a :: b :: c :: rest =>
      isEmpty a || isEmpty b || (isEmpty c && bool_decide (rest = []))
  | _ => true
  end.

(** The identifier of the persisted state layout,
    [{account_id}/{namespace}/{group_name}]. *)
Definition formatID (account namespace name : string) : string :=
  account +:+ "/" +:+ namespace +:+ "/" +:+ name.

(** The error of [GroupParseID] on [id]. *)
Definition formatError (id : string) : error :=
  errorString ("unexpected format of ID (" +:+ id
               +:+ "), expected AWS_ACCOUNT_ID/NAMESPACE/GROUP_NAME").

Definition errorDiag (summary : string) : diag.Diagnostic :=
  {| diag.Severity_ := diag.Error; diag.Summary := summary;
     diag.Detail := EmptyString |}.

(** A byte of the class [a-zA-Z0-9._-], by its code. *)
Definition namespaceByte (c : ascii) : Prop :=
  let n := nat_of_ascii c in
  (97 <= n <= 122)%nat \/ (65 <= n <= 90)%nat \/ (48 <= n <= 57)%nat
  \/ n = 46%nat \/ n = 95%nat \/ n = 45%nat.

(** The validator of the [namespace] attribute accepts [v]: it reports
    no error. *)
Definition namespaceAccepts (v : string) : bool :=
  match SchemaFunc !! "namespace" with
  | Some s =>
      match schema.ValidateFunc s with
      | Some f => bool_decide (length (snd (f v "namespace")) = 0%nat)
      | None => true
      end
  | None => true
  end.

(** What the configuration holds for [key]: its value when one is set
    (present and not the empty string). *)
Definition configured (d : schema.ResourceData) (key : string) : option string :=
  match schema.attrs d !! key with
  | Some v => if isEmpty v then None else Some v
  | None => None
  end.

(** The account a create call is made for: the configured
    [aws_account_id] if one is set, otherwise the provider's. *)
Definition accountOf (d : schema.ResourceData) (meta : conns.AWSClient) : string :=
  default (conns.AccountID meta) (configured d "aws_account_id").

(** The namespace a create call is made for: the configured value,
    [default] when the attribute is omitted. *)
Definition namespaceOf (d : schema.ResourceData) : string :=
  default "default" (schema.attrs d !! "namespace").

(** The create request of the specification: account, namespace, group
    name and the optional description. *)
Definition createRequest (d : schema.ResourceData) (meta : conns.AWSClient)
  : quicksight.Request :=
  quicksight.CreateGroupWithContext
    {| quicksight.Create_AwsAccountId := Some (accountOf d meta);
       quicksight.Create_Description := configured d "description";
       quicksight.Create_GroupName :=
         Some (default EmptyString (schema.attrs d !! "group_name"));
       quicksight.Create_Namespace := Some (namespaceOf d) |}.

Definition describeRequest (account namespace name : string) : quicksight.Request :=
  quicksight.DescribeGroupWithContext
    {| quicksight.Describe_AwsAccountId := Some account;
       quicksight.Describe_GroupName := Some name;
       quicksight.Describe_Namespace := Some namespace |}.

Definition updateRequest (account namespace name : string)
    (description : option string) : quicksight.Request :=
  quicksight.UpdateGroupWithContext
    {| quicksight.Update_AwsAccountId := Some account;
       quicksight.Update_Description := description;
       quicksight.Update_GroupName := Some name;
       quicksight.Update_Namespace := Some namespace |}.

Definition deleteRequest (account namespace name : string) : quicksight.Request :=
  quicksight.DeleteGroupWithContext
    {| quicksight.Delete_AwsAccountId := Some account;
       quicksight.Delete_GroupName := Some name;
       quicksight.Delete_Namespace := Some namespace |}.

(** [id] is [account/namespace/name] with a slash-free, non-empty
    account and namespace and a non-empty name. *)
Definition wellFormed (id account namespace name : string) : Prop :=
  id = formatID account namespace name
  /\ slashFree account = true /\ slashFree namespace = true
  /\ isEmpty account = false /\ isEmpty namespace = false
  /\ isEmpty name = false.

(** The error is the service's not-found error. *)
Definition notFound (e : error) : Prop :=
  exists message, e = awsError "ResourceNotFoundException" message.

(** Sample values for the examples below. *)
Definition sampleGroup : quicksight.Group :=
  {| quicksight.Arn := Some "arn:aws:quicksight:us-east-1:123456789012:group/default/tf-group";
     quicksight.Description := Some "analysts";
     quicksight.GroupName := Some "tf-group";
     quicksight.PrincipalId := None |}.

Definition sampleMeta : conns.AWSClient := {| conns.AccountID := "123456789012" |}.

Definition sampleData (id : string) (new : bool) (config : gmap string string)
  : schema.ResourceData :=
  {| schema.schema_ := SchemaFunc; schema.id := id;
     schema.isNew := new; schema.attrs := config |}.

Definition answers
    (c d u x : option error) : Service unit :=
  fixedService
    ({| quicksight.Create_Group := if c is Some _ then None else Some sampleGroup |}, c)
    ({| quicksight.Describe_Group := if d is Some _ then None else Some sampleGroup |}, d)
    ({| quicksight.Update_Group := if u is Some _ then None else Some sampleGroup |}, u)
    ({| quicksight.Delete_Status := None |}, x).

(** A service is sound for create when a create call that reports no
    error carries the group it created. *)
Definition createSound {W : Type} (svc : Service W) : Prop :=
  forall input w,
    snd (fst (svc (quicksight.CreateGroupWithContext input) w)) = None ->
    quicksight.Create_Group
      (fst (fst (svc (quicksight.CreateGroupWithContext input) w))) <> None.

(** The request is a delete call. *)
Definition isDelete (r : quicksight.Request) : bool :=
  match r with
  | quicksight.DeleteGroupWithContext _ => true
  | _ => false
  end.

(** The data once a read has stored [group] for the account and the
    namespace of the identifier. *)
Definition withGroup (d : schema.ResourceData) (account namespace : string)
    (group : quicksight.Group) : schema.ResourceData :=
  {| schema.schema_ := schema.schema_ d; schema.id := schema.id d;
     schema.isNew := schema.isNew d;
     schema.attrs :=
       <["namespace" := namespace]>
       (<["description" := aws.StringValue (quicksight.Description group)]>
       (<["group_name" := aws.StringValue (quicksight.GroupName group)]>
       (<["aws_account_id" := account]>
       (<["arn" := aws.StringValue (quicksight.Arn group)]>
       (schema.attrs d))))) |}.

(** * Facts *)

(** ** Strings and the split *)
Section GoStringFacts.

Import GoStrings.

Lemma index_slash_cons c r :
  String.index 0 "/" (String c r)
  = if Ascii.eqb c "/" then Some 0%nat else S <$> String.index 0 "/" r.
Proof.
  cbn [String.index String.prefix].
  destruct (ascii_dec "/" c) as [<- | Hne].
  - rewrite Ascii.eqb_refl. destruct r; reflexivity.
  - assert (Ascii.eqb c "/" = false) as -> by (apply Ascii.eqb_neq; congruence).
    destruct (String.index 0 "/" r); reflexivity.
Qed.

Lemma index_slashFree s :
  slashFree s = true -> String.index 0 "/" s = None.
Proof.
  induction s as [| c r IH]; [reflexivity |].
  intros [Hc Hr]%andb_true_iff. rewrite index_slash_cons.
  apply negb_true_iff in Hc. rewrite Hc, (IH Hr). reflexivity.
Qed.

Lemma index_app_slash a r :
  slashFree a = true ->
  String.index 0 "/" (a +:+ String "/" r) = Some (String.length a).
Proof.
  induction a as [| c a IH]; intros Ha.
  - change (EmptyString +:+ String "/" r) with (String "/" r).
    rewrite index_slash_cons. reflexivity.
  - apply andb_true_iff in Ha as [Hc Ha]. apply negb_true_iff in Hc.
    change (String c a +:+ String "/" r) with (String c (a +:+ String "/" r)).
    rewrite index_slash_cons, Hc, (IH Ha). reflexivity.
Qed.

(** Every string is free of slashes or has a first one. *)
Lemma first_slash s :
  slashFree s = true
  \/ exists a r, s = a +:+ String "/" r /\ slashFree a = true.
Proof.
  induction s as [| c s IH]; [left; reflexivity |].
  destruct (Ascii.eqb c "/") eqn:Hc.
  - right. apply Ascii.eqb_eq in Hc as ->. exists EmptyString, s. split; reflexivity.
  - destruct IH as [Hs | (a & r & -> & Ha)].
    + left. simpl. rewrite Hc, Hs. reflexivity.
    + right. exists (String c a), r. split; [reflexivity |].
      simpl. rewrite Hc, Ha. reflexivity.
Qed.

Lemma substring_all s : String.substring 0 (String.length s) s = s.
Proof. induction s as [| c s IH]; simpl; [| rewrite IH]; reflexivity. Qed.

Lemma substring_app_l a r :
  String.substring 0 (String.length a) (a +:+ r) = a.
Proof.
  induction a as [| c a IH]; simpl.
  - destruct r; reflexivity.
  - rewrite IH. reflexivity.
Qed.

Lemma length_app a r :
  String.length (a +:+ r) = (String.length a + String.length r)%nat.
Proof. induction a as [| c a IH]; simpl; [| rewrite IH]; reflexivity. Qed.

Lemma substring_app_r a r :
  String.substring (String.length a) (String.length r) (a +:+ r) = r.
Proof.
  induction a as [| c a IH]; simpl; [apply substring_all | apply IH].
Qed.

Lemma sliceTo_app a r : sliceTo (a +:+ r) (Z.of_nat (String.length a)) = a.
Proof. unfold sliceTo. rewrite Nat2Z.id. apply substring_app_l. Qed.

Lemma sliceFrom_app a r :
  sliceFrom (a +:+ String "/" r) (Z.of_nat (String.length a) + len "/") = r.
Proof.
  unfold sliceFrom, len.
  replace (Z.to_nat (Z.of_nat (String.length a) + Z.of_nat (String.length "/")))
    with (String.length (a +:+ "/")) by (rewrite length_app; simpl; lia).
  replace (a +:+ String "/" r) with ((a +:+ "/") +:+ r).
  - rewrite (length_app (a +:+ "/") r).
    replace (String.length (a +:+ "/") + String.length r - String.length (a +:+ "/"))%nat
      with (String.length r) by lia.
    apply substring_app_r.
  - induction a as [| c a IH]; [reflexivity |].
    change (String c ((a +:+ "/") +:+ r) = String c (a +:+ String "/" r)).
    rewrite IH. reflexivity.
Qed.

Lemma genSplit_loop_slashFree n s :
  slashFree s = true -> genSplit_loop n s "/" = [s].
Proof.
  intros Hs. destruct n; [reflexivity |].
  simpl. unfold Index. rewrite (index_slashFree _ Hs). reflexivity.
Qed.

Lemma genSplit_loop_step n a r :
  slashFree a = true ->
  genSplit_loop (S n) (a +:+ String "/" r) "/" = a :: genSplit_loop n r "/".
Proof.
  intros Ha. simpl. unfold Index. rewrite (index_app_slash _ _ Ha).
  assert ((Z.of_nat (String.length a) <? 0) = false) as -> by (apply Z.ltb_ge; lia).
  rewrite sliceTo_app, sliceFrom_app. reflexivity.
Qed.

(** With a limit of 3 the loop runs at most twice; on a string of at
    least two bytes the cap [len(s)+1] does not bite. *)
Lemma SplitN_3 s :
  exists n, SplitN s "/" 3 = genSplit_loop n s "/"
            /\ ((2 <= String.length s)%nat -> n = 2%nat).
Proof.
  unfold SplitN. change (3 =? 0) with false. change (3 <? 0) with false.
  cbv iota.
  destruct (3 >? len s + 1) eqn:Hcap.
  - exists (Z.to_nat (len s + 1 - 1)). split; [reflexivity |].
    unfold len in *. lia.
  - exists 2%nat. split; reflexivity.
Qed.

Lemma SplitN_3_two_slashes a b r :
  slashFree a = true -> slashFree b = true ->
  SplitN (a +:+ String "/" (b +:+ String "/" r)) "/" 3 = [a; b; r].
Proof.
  intros Ha Hb. destruct (SplitN_3 (a +:+ String "/" (b +:+ String "/" r)))
    as (n & -> & Hn).
  rewrite Hn.
  - rewrite (genSplit_loop_step _ _ _ Ha), (genSplit_loop_step _ _ _ Hb).
    reflexivity.
  - rewrite length_app. simpl. rewrite length_app. simpl. lia.
Qed.

Lemma SplitN_3_short s :
  slashFree s = true
  \/ (exists a r, s = a +:+ String "/" r
                  /\ slashFree a = true /\ slashFree r = true) ->
  (length (SplitN s "/" 3) < 3)%nat.
Proof.
  intros H. destruct (SplitN_3 s) as (n & -> & _).
  destruct H as [Hs | (a & r & -> & Ha & Hr)].
  - rewrite (genSplit_loop_slashFree _ _ Hs). simpl. lia.
  - destruct n.
    + simpl. lia.
    + rewrite (genSplit_loop_step _ _ _ Ha), (genSplit_loop_slashFree _ _ Hr).
      simpl. lia.
Qed.

End GoStringFacts.

(** ** Segments and the parser *)
Section ParserFacts.

Lemma segments_slashFree s : slashFree s = true -> segments s = [s].
Proof.
  induction s as [| c s IH]; [reflexivity |].
  intros [Hc Hs]%andb_true_iff. apply negb_true_iff in Hc.
  simpl. rewrite Hc, (IH Hs). reflexivity.
Qed.

Lemma segments_app_slash a r :
  slashFree a = true -> segments (a +:+ String "/" r) = a :: segments r.
Proof.
  induction a as [| c a IH]; intros Ha; [reflexivity |].
  apply andb_true_iff in Ha as [Hc Ha]. apply negb_true_iff in Hc.
  change (String c a +:+ String "/" r) with (String c (a +:+ String "/" r)).
  simpl. rewrite Hc, (IH Ha). reflexivity.
Qed.

Lemma isEmpty_app_slash a r : isEmpty (a +:+ String "/" r) = false.
Proof. destruct a; reflexivity. Qed.

(** The text after the second slash is empty exactly when the third
    segment is empty and the last. *)
Lemma segments_head r :
  exists c rest, segments r = c :: rest
                 /\ isEmpty c && bool_decide (rest = []) = isEmpty r.
Proof.
  destruct (first_slash r) as [Hr | (a & r' & -> & Ha)].
  - exists r, []. rewrite (segments_slashFree _ Hr). split; [reflexivity |].
    rewrite bool_decide_eq_true_2 by reflexivity. apply andb_true_r.
  - rewrite (segments_app_slash _ _ Ha), isEmpty_app_slash.
    exists a, (segments r'). split; [reflexivity |].
    rewrite bool_decide_eq_false_2; [apply andb_false_r |].
    destruct r' as [| c s]; simpl; [discriminate |].
    destruct (Ascii.eqb c "/"); [discriminate |].
    destruct (segments s); discriminate.
Qed.

Lemma Errorf_formatError id :
  fmt.Errorf
    "unexpected format of ID (%s), expected AWS_ACCOUNT_ID/NAMESPACE/GROUP_NAME"
    [fmt.Str id]
  = formatError id.
Proof. reflexivity. Qed.

Lemma GroupParseID_short id :
  (length (GoStrings.SplitN id "/" 3) < 3)%nat ->
  GroupParseID id = (EmptyString, EmptyString, EmptyString, Some (formatError id)).
Proof.
  intros Hlen. unfold GroupParseID. rewrite Errorf_formatError.
  assert ((Z.of_nat (length (GoStrings.SplitN id "/" 3)) <? 3) = true) as ->
    by (apply Z.ltb_lt; lia).
  reflexivity.
Qed.

Lemma GroupParseID_three a b r :
  slashFree a = true -> slashFree b = true ->
  GroupParseID (formatID a b r)
  = if isEmpty a || isEmpty b || isEmpty r
    then (EmptyString, EmptyString, EmptyString,
          Some (formatError (formatID a b r)))
    else (a, b, r, None).
Proof.
  intros Ha Hb. unfold GroupParseID. rewrite Errorf_formatError.
  change (formatID a b r) with (a +:+ String "/" (b +:+ String "/" r)).
  rewrite (SplitN_3_two_slashes _ _ _ Ha Hb).
  reflexivity.
Qed.

Lemma malformedID_three a b r :
  slashFree a = true -> slashFree b = true ->
  malformedID (formatID a b r) = isEmpty a || isEmpty b || isEmpty r.
Proof.
  intros Ha Hb. unfold malformedID.
  change (formatID a b r) with (a +:+ String "/" (b +:+ String "/" r)).
  rewrite (segments_app_slash _ _ Ha), (segments_app_slash _ _ Hb).
  destruct (segments_head r) as (c & rest & -> & <-). reflexivity.
Qed.

(** Every identifier has fewer than two slashes, or is two slash-free
    pieces and a remainder. *)
Lemma two_slashes id :
  (malformedID id = true /\ (length (GoStrings.SplitN id "/" 3) < 3)%nat)
  \/ exists a b r, id = formatID a b r
                   /\ slashFree a = true /\ slashFree b = true.
Proof.
  destruct (first_slash id) as [Hid | (a & r1 & -> & Ha)].
  - left. split; [| apply SplitN_3_short; left; exact Hid].
    unfold malformedID. rewrite (segments_slashFree _ Hid). reflexivity.
  - destruct (first_slash r1) as [Hr1 | (b & r & -> & Hb)].
    + left. split; [| apply SplitN_3_short; right; eauto].
      unfold malformedID.
      rewrite (segments_app_slash _ _ Ha), (segments_slashFree _ Hr1).
      reflexivity.
    + right. exists a, b, r. repeat split; assumption.
Qed.

(** The parser fails exactly on the malformed identifiers, always with
    the same error. *)
Lemma GroupParseID_malformed id :
  malformedID id = true ->
  GroupParseID id = (EmptyString, EmptyString, EmptyString, Some (formatError id)).
Proof.
  intros Hm. destruct (two_slashes id) as [[_ Hlen] | (a & b & r & -> & Ha & Hb)].
  - apply GroupParseID_short, Hlen.
  - rewrite (GroupParseID_three _ _ _ Ha Hb).
    rewrite (malformedID_three _ _ _ Ha Hb) in Hm. rewrite Hm. reflexivity.
Qed.

Lemma GroupParseID_wellformed id :
  malformedID id = false ->
  exists a b r,
    id = formatID a b r /\ slashFree a = true /\ slashFree b = true
    /\ isEmpty a = false /\ isEmpty b = false /\ isEmpty r = false
    /\ GroupParseID id = (a, b, r, None).
Proof.
  intros Hm. destruct (two_slashes id) as [[Hm' _] | (a & b & r & -> & Ha & Hb)];
    [congruence |].
  rewrite (malformedID_three _ _ _ Ha Hb) in Hm.
  exists a, b, r. rewrite (GroupParseID_three _ _ _ Ha Hb), Hm.
  apply orb_false_iff in Hm as [[Hea Heb]%orb_false_iff Her].
  repeat split; assumption.
Qed.

Lemma GroupParseID_parts id a n g :
  wellFormed id a n g -> GroupParseID id = (a, n, g, None).
Proof.
  intros (-> & Ha & Hn & Hea & Hen & Heg).
  rewrite (GroupParseID_three _ _ _ Ha Hn), Hea, Hen, Heg. reflexivity.
Qed.

End ParserFacts.

(** ** Messages *)
Section MessageFacts.

Lemma append_empty_r s : s +:+ EmptyString = s.
Proof.
  induction s as [| c s IH]; [reflexivity |].
  change (String c s +:+ EmptyString) with (String c (s +:+ EmptyString)).
  rewrite IH. reflexivity.
Qed.

(** A format that ends in its last verb leaves an empty tail behind. *)
Ltac closing_verb :=
  intros; cbv [sdkdiag.AppendErrorf errorDiag app];
  repeat f_equal;
  match goal with
  | |- fmt.Sprintf ?f ?a = ?rhs =>
      let lhs := eval cbv [fmt.Sprintf fmt.render] in (fmt.Sprintf f a) in
      change (lhs = rhs)
  end;
  rewrite append_empty_r; reflexivity.

Lemma Sprintf_id a n g :
  fmt.Sprintf "%s/%s/%s" [fmt.Str a; fmt.Str n; fmt.Str g] = formatID a n g.
Proof. closing_verb. Qed.

Lemma AppendErrorf_creating e :
  sdkdiag.AppendErrorf [] "creating QuickSight Group: %s" [fmt.Err e]
  = [errorDiag ("creating QuickSight Group: " +:+ Error e)].
Proof. closing_verb. Qed.

Lemma AppendErrorf_reading id e :
  sdkdiag.AppendErrorf [] "reading QuickSight Group (%s): %s"
    [fmt.Str id; fmt.Err e]
  = [errorDiag ("reading QuickSight Group (" +:+ id +:+ "): " +:+ Error e)].
Proof. closing_verb. Qed.

Lemma AppendErrorf_updating_id id e :
  sdkdiag.AppendErrorf [] "updating QuickSight Group (%s): %s"
    [fmt.Str id; fmt.Err e]
  = [errorDiag ("updating QuickSight Group (" +:+ id +:+ "): " +:+ Error e)].
Proof. closing_verb. Qed.

Lemma AppendErrorf_updating id e :
  sdkdiag.AppendErrorf [] "updating QuickSight Group %s: %s"
    [fmt.Str id; fmt.Err e]
  = [errorDiag ("updating QuickSight Group " +:+ id +:+ ": " +:+ Error e)].
Proof. closing_verb. Qed.

Lemma AppendErrorf_deleting_id id e :
  sdkdiag.AppendErrorf [] "deleting QuickSight Group (%s): %s"
    [fmt.Str id; fmt.Err e]
  = [errorDiag ("deleting QuickSight Group (" +:+ id +:+ "): " +:+ Error e)].
Proof. closing_verb. Qed.

Lemma AppendErrorf_deleting id e :
  sdkdiag.AppendErrorf [] "deleting QuickSight Group %s: %s"
    [fmt.Str id; fmt.Err e]
  = [errorDiag ("deleting QuickSight Group " +:+ id +:+ ": " +:+ Error e)].
Proof. closing_verb. Qed.

End MessageFacts.

(** ** Running handlers *)
Section ExecFacts.

Context {W : Type} (svc : Service W).

Lemma exec_bind {A B : Type} (p : Prog A) (f : A -> Prog B) (w : W) :
  exec svc (bind p f) w
  = match exec svc p w with
    | (Returned a, w1, t) =>
        let '(o, w2, t') := exec svc (f a) w1 in (o, w2, t ++ t')
    | (Panicked, w1, t) => (Panicked, w1, t)
    end.
Proof.
  revert w. induction p as [a | | r k IH]; intros w; simpl.
  - destruct (exec svc (f a) w) as [[o w2] t']. reflexivity.
  - reflexivity.
  - destruct (svc r w) as [x w1]. rewrite IH.
    destruct (exec svc (k x) w1) as [[[a |] w2] t]; [| reflexivity].
    destruct (exec svc (f a) w2) as [[o w3] t']. reflexivity.
Qed.

Lemma exec_call {A : Type} (r : quicksight.Request)
    (k : quicksight.Response r -> Prog A) (w : W) x w1 :
  svc r w = (x, w1) ->
  exec svc (call r ≫= k) w
  = let '(o, w2, t) := exec svc (k x) w1 in (o, w2, r :: t).
Proof. intros H. simpl. rewrite H. reflexivity. Qed.

Lemma Id_Set_ d key v : schema.Id (schema.Set_ d key v) = schema.Id d.
Proof. unfold schema.Set_. destruct (schema.schema_ d !! key); reflexivity. Qed.

(** The read handler on a well-formed identifier: one describe call,
    and the three ways it can go on. *)
Lemma read_wellformed d meta a n g w resp err w1 :
  wellFormed (schema.Id d) a n g ->
  svc (describeRequest a n g) w = ((resp, err), w1) ->
  exec svc (resourceGroupRead d meta) w
  = (if negb (schema.IsNewResource d)
        && tfawserr.ErrCodeEquals err quicksight.ErrCodeResourceNotFoundException
     then Returned (schema.SetId d EmptyString, [])
     else
       match err with
       | Some e =>
           Returned (d, [errorDiag ("reading QuickSight Group (" +:+ schema.Id d
                                    +:+ "): " +:+ Error e)])
       | None =>
           match quicksight.Describe_Group resp with
           | None => Panicked
           | Some group =>
               Returned
                 (schema.Set_
                    (schema.Set_
                       (schema.Set_
                          (schema.Set_
                             (schema.Set_ d "arn" (quicksight.Arn group))
                             "aws_account_id" (Some a))
                          "group_name" (quicksight.GroupName group))
                       "description" (quicksight.Description group))
                    "namespace" (Some n), [])
           end
       end,
     w1, [describeRequest a n g]).
Proof.
  intros Hwf Hsvc.
  unfold resourceGroupRead.
  rewrite (GroupParseID_parts _ _ _ _ Hwf). cbv iota beta.
  rewrite (exec_call (describeRequest a n g) _ w _ _ Hsvc).
  destruct (negb (schema.IsNewResource d)
            && tfawserr.ErrCodeEquals err quicksight.ErrCodeResourceNotFoundException);
    [reflexivity |].
  destruct err as [e |]; [rewrite AppendErrorf_reading; reflexivity |].
  destruct (quicksight.Describe_Group resp); reflexivity.
Qed.

End ExecFacts.

(** ** The handlers, step by step *)
Section HandlerFacts.

Context {W : Type} (svc : Service W).

Lemma Get_namespace d :
  schema.schema_ d = SchemaFunc -> schema.Get d "namespace" = namespaceOf d.
Proof.
  intros Hs. unfold schema.Get, namespaceOf.
  destruct (schema.attrs d !! "namespace"); [reflexivity |].
  rewrite Hs. reflexivity.
Qed.

Lemma Get_group_name d :
  schema.schema_ d = SchemaFunc ->
  schema.Get d "group_name" = default EmptyString (schema.attrs d !! "group_name").
Proof.
  intros Hs. unfold schema.Get.
  destruct (schema.attrs d !! "group_name"); [reflexivity |].
  rewrite Hs. reflexivity.
Qed.

Lemma GetOk_description d :
  schema.schema_ d = SchemaFunc ->
  (let '(v, ok) := schema.GetOk d "description" in
   if ok then aws.String v else None)
  = configured d "description".
Proof.
  intros Hs. unfold schema.GetOk, schema.Get, configured, isEmpty.
  destruct (schema.attrs d !! "description") as [v |].
  - destruct (String.eqb v EmptyString); reflexivity.
  - rewrite Hs. reflexivity.
Qed.

Lemma GetOk_account d meta :
  schema.schema_ d = SchemaFunc ->
  (let '(v, ok) := schema.GetOk d "aws_account_id" in
   if ok then v else conns.AccountID meta)
  = accountOf d meta.
Proof.
  intros Hs. unfold schema.GetOk, schema.Get, accountOf, configured, isEmpty.
  destruct (schema.attrs d !! "aws_account_id") as [v |].
  - destruct (String.eqb v EmptyString); reflexivity.
  - rewrite Hs. reflexivity.
Qed.

Lemma ErrCodeEquals_notFound e :
  tfawserr.ErrCodeEquals (Some e) quicksight.ErrCodeResourceNotFoundException = true
  <-> notFound e.
Proof.
  unfold notFound, quicksight.ErrCodeResourceNotFoundException. split.
  - destruct e as [s | code message]; simpl; [discriminate |].
    intros ->%String.eqb_eq. eauto.
  - intros [message ->]. reflexivity.
Qed.

(** The create handler: one create call, and on success the
    identifier and the follow-up read. *)
Lemma create_steps d meta w resp err w1 :
  schema.schema_ d = SchemaFunc ->
  svc (createRequest d meta) w = ((resp, err), w1) ->
  exec svc (resourceGroupCreate d meta) w
  = match err with
    | Some e =>
        (Returned (d, [errorDiag ("creating QuickSight Group: " +:+ Error e)]),
         w1, [createRequest d meta])
    | None =>
        match quicksight.Create_Group resp with
        | None => (Panicked, w1, [createRequest d meta])
        | Some group =>
            let d1 :=
              schema.SetId d
                (formatID (accountOf d meta) (namespaceOf d)
                   (aws.StringValue (quicksight.GroupName group))) in
            let '(o, w2, t) := exec svc (resourceGroupRead d1 meta) w1 in
            (o, w2, createRequest d meta :: t)
        end
    end.
Proof.
  intros Hs Hsvc. unfold resourceGroupCreate.
  rewrite (GetOk_account _ _ Hs), (GetOk_description _ Hs),
    (Get_namespace _ Hs), (Get_group_name _ Hs).
  rewrite (exec_call svc (createRequest d meta) _ w _ _ Hsvc).
  destruct err as [e |]; [rewrite AppendErrorf_creating; reflexivity |].
  destruct (quicksight.Create_Group resp) as [group |]; [| reflexivity].
  rewrite Sprintf_id. cbv zeta.
  change (exec svc (?p ≫= ?f) w1) with (exec svc (bind p f) w1).
  rewrite exec_bind.
  destruct (exec svc (resourceGroupRead _ meta) w1) as [[[[d2 rdiags] |] w2] t];
    cbn [exec app]; rewrite ?app_nil_r; reflexivity.
Qed.

(** On a new resource, against a sound service, the read handler
    returns and leaves the identifier alone. *)
Lemma read_new_keeps_id d meta w :
  schema.IsNewResource d = true -> describeSound svc ->
  exists d' diags w' t,
    exec svc (resourceGroupRead d meta) w = (Returned (d', diags), w', t)
    /\ schema.Id d' = schema.Id d.
Proof.
  intros Hnew Hsound. destruct (malformedID (schema.Id d)) eqn:Hm.
  - exists d. unfold resourceGroupRead.
    rewrite (GroupParseID_malformed _ Hm). simpl. eauto.
  - destruct (GroupParseID_wellformed _ Hm)
      as (a & n & g & Hid & Ha & Hn & Hea & Hen & Heg & _).
    destruct (svc (describeRequest a n g) w) as [[resp err] w1] eqn:Hsvc.
    rewrite (read_wellformed svc d meta a n g w resp err w1) by (repeat split; assumption || exact Hsvc).
    rewrite Hnew. cbn [negb andb].
    destruct err as [e |]; [do 4 eexists; split; reflexivity |].
    unfold describeRequest in Hsvc.
    match type of Hsvc with
    | svc (quicksight.DescribeGroupWithContext ?input) _ = _ =>
        pose proof (Hsound input w) as Hg
    end.
    rewrite Hsvc in Hg. cbn [fst snd] in Hg. specialize (Hg eq_refl).
    destruct (quicksight.Describe_Group resp) as [group |]; [| congruence].
    do 4 eexists. split; [reflexivity |].
    rewrite !Id_Set_. reflexivity.
Qed.

Lemma read_calls_describe d meta a n g w :
  wellFormed (schema.Id d) a n g ->
  exists o w1,
    exec svc (resourceGroupRead d meta) w = (o, w1, [describeRequest a n g]).
Proof.
  intros Hwf.
  destruct (svc (describeRequest a n g) w) as [[resp err] w1] eqn:Hsvc.
  rewrite (read_wellformed svc d meta a n g w resp err w1 Hwf Hsvc). eauto.
Qed.

Lemma Set__known d key v :
  schema.schema_ d = SchemaFunc -> is_Some (SchemaFunc !! key) ->
  schema.Set_ d key v
  = {| schema.schema_ := SchemaFunc; schema.id := schema.id d;
       schema.isNew := schema.isNew d;
       schema.attrs := <[key := aws.StringValue v]> (schema.attrs d) |}.
Proof.
  intros Hs [x Hx]. unfold schema.Set_. rewrite Hs, Hx. reflexivity.
Qed.

End HandlerFacts.

(** * The claims *)

(** ** Identifier parsing *)

(** C1, as stated, fails: an identifier of four segments does not
    consist of exactly three non-empty segments, and one with two
    slashes in a row after the namespace has an empty segment, yet the
    parser accepts both, because it splits on the first two slashes
    only. *)
Lemma more_than_three_segments_accepted :
  (threeNonEmptySegments "A/N/G/X" = false
   /\ GroupParseID "A/N/G/X" = ("A", "N", "G/X", None))
  /\ (segments "A/N//X" = ["A"; "N"; ""; "X"]
      /\ threeNonEmptySegments "A/N//X" = false
      /\ GroupParseID "A/N//X" = ("A", "N", "/X", None)).
Proof. repeat split; vm_compute; reflexivity. Qed.

(** C1 (amended): for every identifier with fewer than two slashes, or
    with an empty first or second segment, or with nothing after its
    second slash, [GroupParseID] returns a non-nil error, and read,
    update and delete each return that error as their one diagnostic,
    of error severity, without calling the service and without touching
    the data. *)
Theorem malformed_identifier_rejected {W : Type} (svc : Service W) (w : W)
    (d : schema.ResourceData) (meta : conns.AWSClient) :
  malformedID (schema.Id d) = true ->
  let id := schema.Id d in
  let text := "unexpected format of ID (" +:+ id
              +:+ "), expected AWS_ACCOUNT_ID/NAMESPACE/GROUP_NAME" in
  GroupParseID id = (EmptyString, EmptyString, EmptyString, Some (errorString text))
  /\ exec svc (resourceGroupRead d meta) w
     = (Returned (d, [errorDiag ("reading QuickSight Group (" +:+ id +:+ "): " +:+ text)]),
        w, [])
  /\ exec svc (resourceGroupUpdate d meta) w
     = (Returned (d, [errorDiag ("updating QuickSight Group (" +:+ id +:+ "): " +:+ text)]),
        w, [])
  /\ exec svc (resourceGroupDelete d meta) w
     = (Returned (d, [errorDiag ("deleting QuickSight Group (" +:+ id +:+ "): " +:+ text)]),
        w, []).
Proof.
  intros Hm id text. pose proof (GroupParseID_malformed _ Hm) as Hp.
  fold id in Hp. split; [exact Hp |].
  unfold resourceGroupRead, resourceGroupUpdate, resourceGroupDelete.
  fold id. rewrite Hp.
  rewrite AppendErrorf_reading, AppendErrorf_updating_id, AppendErrorf_deleting_id.
  repeat split; reflexivity.
Qed.

Lemma malformed_identifier_rejected_witness :
  let d := sampleData "A/N/" false ∅ in
  malformedID (schema.Id d) = true
  /\ exec (answers None None None None) (resourceGroupRead d sampleMeta) tt
     = (Returned
          (d, [errorDiag "reading QuickSight Group (A/N/): unexpected format of ID (A/N/), expected AWS_ACCOUNT_ID/NAMESPACE/GROUP_NAME"]),
        tt, []).
Proof.
  intros d. split; [reflexivity |].
  exact (proj1 (proj2 (malformed_identifier_rejected
                         (answers None None None None) tt d sampleMeta eq_refl))).
Defined.

(** C2: for every account id, namespace and group name, each non-empty
    and free of slashes, the identifier the create handler formats from
    them has exactly these three segments, and [GroupParseID] returns
    exactly the three with a nil error. *)
Theorem format_parse_roundtrip (A N G : string) :
  isEmpty A = false -> slashFree A = true ->
  isEmpty N = false -> slashFree N = true ->
  isEmpty G = false -> slashFree G = true ->
  let id := fmt.Sprintf "%s/%s/%s" [fmt.Str A; fmt.Str N; fmt.Str G] in
  id = A +:+ "/" +:+ N +:+ "/" +:+ G
  /\ segments id = [A; N; G]
  /\ GroupParseID id = (A, N, G, None).
Proof.
  intros HeA HA HeN HN HeG HG id. unfold id. rewrite Sprintf_id.
  split; [reflexivity |]. split.
  - change (formatID A N G) with (A +:+ String "/" (N +:+ String "/" G)).
    rewrite (segments_app_slash _ _ HA), (segments_app_slash _ _ HN),
      (segments_slashFree _ HG).
    reflexivity.
  - rewrite (GroupParseID_three _ _ _ HA HN), HeA, HeN, HeG. reflexivity.
Qed.

Lemma format_parse_roundtrip_witness :
  GroupParseID (fmt.Sprintf "%s/%s/%s"
                  [fmt.Str "123456789012"; fmt.Str "default"; fmt.Str "tf-group"])
  = ("123456789012", "default", "tf-group", None).
Proof.
  exact (proj2 (proj2 (format_parse_roundtrip "123456789012" "default" "tf-group"
                         eq_refl eq_refl eq_refl eq_refl eq_refl eq_refl))).
Defined.

(** C10: for a non-empty, slash-free account and namespace and any
    non-empty remainder, further slashes included, the split stops after
    the second separator and [GroupParseID] succeeds with the whole
    remainder as the group name. *)
Theorem remainder_is_group_name (A N R : string) :
  isEmpty A = false -> slashFree A = true ->
  isEmpty N = false -> slashFree N = true ->
  isEmpty R = false ->
  GoStrings.SplitN (A +:+ "/" +:+ N +:+ "/" +:+ R) "/" 3 = [A; N; R]
  /\ GroupParseID (A +:+ "/" +:+ N +:+ "/" +:+ R) = (A, N, R, None).
Proof.
  intros HeA HA HeN HN HeR. split.
  - apply (SplitN_3_two_slashes _ _ _ HA HN).
  - change (A +:+ "/" +:+ N +:+ "/" +:+ R) with (formatID A N R).
    rewrite (GroupParseID_three _ _ _ HA HN), HeA, HeN, HeR. reflexivity.
Qed.

Lemma remainder_is_group_name_witness :
  GoStrings.SplitN "123456789012/default/team/a//b/" "/" 3
  = ["123456789012"; "default"; "team/a//b/"]
  /\ GroupParseID "123456789012/default/team/a//b/"
     = ("123456789012", "default", "team/a//b/", None).
Proof.
  exact (remainder_is_group_name "123456789012" "default" "team/a//b/"
           eq_refl eq_refl eq_refl eq_refl eq_refl).
Defined.

(** ** Create *)

(** C3: on data bound to the resource's schema and marked new, as the
    SDK hands it to create, and against a service whose successful
    describe answers carry a group: when the create call succeeds and
    echoes a group, the handler returns, and the identifier it leaves
    is account, slash, namespace, slash, echoed group name. The account
    is the configured [aws_account_id] if one is set and the provider's
    otherwise; the namespace is the configured one, and [default] when
    the attribute is omitted. *)
Theorem create_stores_identifier {W : Type} (svc : Service W) (w w1 : W)
    (d : schema.ResourceData) (meta : conns.AWSClient)
    (resp : quicksight.CreateGroupOutput) (group : quicksight.Group) :
  schema.schema_ d = SchemaFunc ->
  schema.IsNewResource d = true ->
  describeSound svc ->
  svc (createRequest d meta) w = ((resp, None), w1) ->
  quicksight.Create_Group resp = Some group ->
  exists d' diags w' t,
    exec svc (resourceGroupCreate d meta) w
    = (Returned (d', diags), w', createRequest d meta :: t)
    /\ schema.Id d'
       = accountOf d meta +:+ "/" +:+ namespaceOf d +:+ "/"
         +:+ aws.StringValue (quicksight.GroupName group)
    /\ (schema.attrs d !! "namespace" = None ->
        schema.Id d'
        = accountOf d meta +:+ "/default/"
          +:+ aws.StringValue (quicksight.GroupName group)).
Proof.
  intros Hs Hnew Hsound Hsvc Hgroup.
  rewrite (create_steps svc d meta w resp None w1 Hs Hsvc), Hgroup. cbv zeta.
  set (d1 := schema.SetId d _).
  destruct (read_new_keeps_id svc d1 meta w1 Hnew Hsound)
    as (d' & diags & w' & t & -> & Hid).
  exists d', diags, w', t. split; [reflexivity |].
  rewrite Hid. split; [reflexivity |].
  intros Hns. unfold d1, namespaceOf. rewrite Hns. reflexivity.
Qed.

Lemma create_stores_identifier_witness :
  let d := sampleData EmptyString true (<["group_name" := "tf-group"]> ∅) in
  exists d' diags w' t,
    exec (answers None None None None) (resourceGroupCreate d sampleMeta) tt
    = (Returned (d', diags), w', createRequest d sampleMeta :: t)
    /\ schema.Id d' = "123456789012/default/tf-group".
Proof.
  intros d.
  destruct (create_stores_identifier (answers None None None None) tt tt d
              sampleMeta {| quicksight.Create_Group := Some sampleGroup |}
              sampleGroup eq_refl eq_refl)
    as (d' & diags & w' & t & Hexec & _ & Hid).
  - intros input w _. simpl. discriminate.
  - reflexivity.
  - reflexivity.
  - exists d', diags, w', t. split; [exact Hexec | exact (Hid eq_refl)].
Defined.

(** C4: when the create call fails, the handler makes no further call
    and returns the data exactly as it received it, so no identifier is
    set, with one diagnostic of error severity that carries the
    error. *)
Theorem create_failure_sets_no_identifier {W : Type} (svc : Service W) (w w1 : W)
    (d : schema.ResourceData) (meta : conns.AWSClient)
    (resp : quicksight.CreateGroupOutput) (e : error) :
  schema.schema_ d = SchemaFunc ->
  svc (createRequest d meta) w = ((resp, Some e), w1) ->
  exists d' diags,
    exec svc (resourceGroupCreate d meta) w
    = (Returned (d', diags), w1, [createRequest d meta])
    /\ d' = d
    /\ schema.Id d' = schema.Id d
    /\ diags = [errorDiag ("creating QuickSight Group: " +:+ Error e)]
    /\ diag.HasError diags = true.
Proof.
  intros Hs Hsvc. rewrite (create_steps svc d meta w resp (Some e) w1 Hs Hsvc).
  do 2 eexists. repeat split; reflexivity.
Qed.

Lemma create_failure_sets_no_identifier_witness :
  let d := sampleData EmptyString true (<["group_name" := "tf-group"]> ∅) in
  let e := awsError "AccessDeniedException" "not allowed" in
  exists d' diags,
    exec (answers (Some e) None None None) (resourceGroupCreate d sampleMeta) tt
    = (Returned (d', diags), tt, [createRequest d sampleMeta])
    /\ d' = d
    /\ schema.Id d' = EmptyString
    /\ diags = [errorDiag "creating QuickSight Group: AccessDeniedException: not allowed"]
    /\ diag.HasError diags = true.
Proof.
  intros d e.
  exact (create_failure_sets_no_identifier (answers (Some e) None None None) tt tt
           d sampleMeta {| quicksight.Create_Group := None |} e eq_refl eq_refl).
Defined.

(** ** Read *)

(** C5: a read whose describe call returns the not-found error clears
    the identifier and returns no diagnostics when the resource is not
    new; when it is new, the identifier stays and the same error is
    returned as a diagnostic of error severity. *)
Theorem read_not_found {W : Type} (svc : Service W) (w w1 : W)
    (d : schema.ResourceData) (meta : conns.AWSClient) (a n g : string)
    (resp : quicksight.DescribeGroupOutput) (e : error) :
  wellFormed (schema.Id d) a n g ->
  notFound e ->
  svc (describeRequest a n g) w = ((resp, Some e), w1) ->
  (schema.IsNewResource d = false ->
   exists d',
     exec svc (resourceGroupRead d meta) w
     = (Returned (d', []), w1, [describeRequest a n g])
     /\ schema.Id d' = EmptyString)
  /\ (schema.IsNewResource d = true ->
      exists diags,
        exec svc (resourceGroupRead d meta) w
        = (Returned (d, diags), w1, [describeRequest a n g])
        /\ diags = [errorDiag ("reading QuickSight Group (" +:+ schema.Id d
                               +:+ "): " +:+ Error e)]
        /\ diag.HasError diags = true).
Proof.
  intros Hwf Hnf%ErrCodeEquals_notFound Hsvc.
  rewrite (read_wellformed svc d meta a n g w resp (Some e) w1 Hwf Hsvc), Hnf.
  split; intros ->; cbn [negb andb].
  - eexists. split; reflexivity.
  - eexists. repeat split; reflexivity.
Qed.

Lemma read_not_found_witness :
  let gone := awsError "ResourceNotFoundException" "group not found" in
  let svc := answers None (Some gone) None None in
  (exists d',
     exec svc (resourceGroupRead (sampleData "123456789012/default/tf-group" false ∅)
                 sampleMeta) tt
     = (Returned (d', []), tt, [describeRequest "123456789012" "default" "tf-group"])
     /\ schema.Id d' = EmptyString)
  /\ (exists diags,
        exec svc (resourceGroupRead (sampleData "123456789012/default/tf-group" true ∅)
                    sampleMeta) tt
        = (Returned (sampleData "123456789012/default/tf-group" true ∅, diags), tt,
           [describeRequest "123456789012" "default" "tf-group"])
        /\ diags = [errorDiag "reading QuickSight Group (123456789012/default/tf-group): ResourceNotFoundException: group not found"]
        /\ diag.HasError diags = true).
Proof.
  intros gone svc. split.
  - refine (proj1 (read_not_found svc tt tt
                     (sampleData "123456789012/default/tf-group" false ∅) sampleMeta
                     "123456789012" "default" "tf-group"
                     {| quicksight.Describe_Group := None |} gone _ _ eq_refl) eq_refl).
    + repeat split; reflexivity.
    + exists "group not found". reflexivity.
  - refine (proj2 (read_not_found svc tt tt
                     (sampleData "123456789012/default/tf-group" true ∅) sampleMeta
                     "123456789012" "default" "tf-group"
                     {| quicksight.Describe_Group := None |} gone _ _ eq_refl) eq_refl).
    + repeat split; reflexivity.
    + exists "group not found". reflexivity.
Defined.

(** C7: a read whose describe call succeeds and carries a group stores
    arn, group_name and description from the response (a nil pointer as
    the empty string), and aws_account_id and namespace from the parsed
    identifier; it returns no diagnostics and leaves the identifier as
    it was. *)
Theorem read_populates_state {W : Type} (svc : Service W) (w w1 : W)
    (d : schema.ResourceData) (meta : conns.AWSClient) (a n g : string)
    (resp : quicksight.DescribeGroupOutput) (group : quicksight.Group) :
  schema.schema_ d = SchemaFunc ->
  wellFormed (schema.Id d) a n g ->
  svc (describeRequest a n g) w = ((resp, None), w1) ->
  quicksight.Describe_Group resp = Some group ->
  exists d',
    exec svc (resourceGroupRead d meta) w
    = (Returned (d', []), w1, [describeRequest a n g])
    /\ schema.attrs d' !! "arn" = Some (aws.StringValue (quicksight.Arn group))
    /\ schema.attrs d' !! "group_name"
       = Some (aws.StringValue (quicksight.GroupName group))
    /\ schema.attrs d' !! "description"
       = Some (aws.StringValue (quicksight.Description group))
    /\ schema.attrs d' !! "aws_account_id" = Some a
    /\ schema.attrs d' !! "namespace" = Some n
    /\ schema.Get d' "namespace" = n
    /\ schema.Id d' = schema.Id d.
Proof.
  intros Hs Hwf Hsvc Hgroup.
  rewrite (read_wellformed svc d meta a n g w resp None w1 Hwf Hsvc), Hgroup.
  cbn [tfawserr.ErrCodeEquals]. rewrite andb_false_r.
  eexists. split; [reflexivity |].
  rewrite (Set__known d "arn") by (exact Hs || (eexists; reflexivity)).
  rewrite !Set__known by (reflexivity || (eexists; reflexivity)).
  unfold schema.Get. cbn [schema.attrs schema.Id schema.id].
  repeat split; by simplify_map_eq.
Qed.

Lemma read_populates_state_witness :
  exists d',
    exec (answers None None None None)
      (resourceGroupRead (sampleData "123456789012/finance/tf-group" false ∅) sampleMeta) tt
    = (Returned (d', []), tt, [describeRequest "123456789012" "finance" "tf-group"])
    /\ schema.attrs d' !! "arn"
       = Some "arn:aws:quicksight:us-east-1:123456789012:group/default/tf-group"
    /\ schema.attrs d' !! "namespace" = Some "finance".
Proof.
  destruct (read_populates_state (answers None None None None) tt tt
              (sampleData "123456789012/finance/tf-group" false ∅) sampleMeta
              "123456789012" "finance" "tf-group"
              {| quicksight.Describe_Group := Some sampleGroup |} sampleGroup eq_refl)
    as (d' & Hexec & Harn & _ & _ & _ & Hns & _).
  - repeat split; reflexivity.
  - reflexivity.
  - reflexivity.
  - exists d'. repeat split; assumption.
Defined.

(** ** Update *)

(** C8: on a well-formed identifier the first call of the update
    handler is an update request with the parsed account id, namespace
    and group name, and with the configured description when one is set
    and no description otherwise; the only call that can follow is the
    describe call of the read. *)
Theorem update_request_fields {W : Type} (svc : Service W) (w : W)
    (d : schema.ResourceData) (meta : conns.AWSClient) (a n g : string) :
  schema.schema_ d = SchemaFunc ->
  wellFormed (schema.Id d) a n g ->
  exists o w' t,
    exec svc (resourceGroupUpdate d meta) w
    = (o, w',
       updateRequest a n g
         match schema.attrs d !! "description" with
         | Some v => if String.eqb v EmptyString then None else Some v
         | None => None
         end :: t)
    /\ (t = [] \/ t = [describeRequest a n g]).
Proof.
  intros Hs Hwf.
  change (match schema.attrs d !! "description" with
          | Some v => if String.eqb v EmptyString then None else Some v
          | None => None
          end) with (configured d "description").
  unfold resourceGroupUpdate.
  rewrite (GroupParseID_parts _ _ _ _ Hwf). cbv iota beta.
  rewrite (GetOk_description _ Hs).
  destruct (svc (updateRequest a n g (configured d "description")) w)
    as [[resp err] w1] eqn:Hsvc.
  rewrite (exec_call svc (updateRequest a n g (configured d "description"))
             _ w _ _ Hsvc).
  destruct err as [e |].
  - do 3 eexists. split; [reflexivity | left; reflexivity].
  - change (exec svc (?p ≫= ?f) w1) with (exec svc (bind p f) w1).
    rewrite exec_bind.
    destruct (read_calls_describe svc d meta a n g w1 Hwf) as (o & w2 & ->).
    destruct o as [[d2 rdiags] |];
      do 3 eexists; (split; [reflexivity | right; reflexivity]).
Qed.

Lemma update_request_fields_witness :
  let d := sampleData "123456789012/default/tf-group" false
             (<["description" := "analysts"]> ∅) in
  exists o w' t,
    exec (answers None None None None) (resourceGroupUpdate d sampleMeta) tt
    = (o, w',
       updateRequest "123456789012" "default" "tf-group" (Some "analysts") :: t)
    /\ (t = [] \/ t = [describeRequest "123456789012" "default" "tf-group"]).
Proof.
  intros d.
  refine (update_request_fields (answers None None None None) tt d sampleMeta
            "123456789012" "default" "tf-group" eq_refl _).
  repeat split; reflexivity.
Defined.

(** ** Delete *)

(** C6: on a well-formed identifier, a delete call that fails with the
    not-found error yields no diagnostics, and a delete call that fails
    with any other error yields one diagnostic of error severity that
    carries it; either way the data is untouched and nothing else is
    called. *)
Theorem delete_not_found_is_success {W : Type} (svc : Service W) (w w1 : W)
    (d : schema.ResourceData) (meta : conns.AWSClient) (a n g : string)
    (resp : quicksight.DeleteGroupOutput) (e : error) :
  wellFormed (schema.Id d) a n g ->
  svc (deleteRequest a n g) w = ((resp, Some e), w1) ->
  (notFound e ->
   exec svc (resourceGroupDelete d meta) w
   = (Returned (d, []), w1, [deleteRequest a n g]))
  /\ (~ notFound e ->
      exists diags,
        exec svc (resourceGroupDelete d meta) w
        = (Returned (d, diags), w1, [deleteRequest a n g])
        /\ diags = [errorDiag ("deleting QuickSight Group " +:+ schema.Id d
                               +:+ ": " +:+ Error e)]
        /\ diag.HasError diags = true).
Proof.
  intros Hwf Hsvc.
  unfold resourceGroupDelete.
  rewrite (GroupParseID_parts _ _ _ _ Hwf). cbv iota beta.
  rewrite (exec_call svc (deleteRequest a n g) _ w _ _ Hsvc).
  destruct (tfawserr.ErrCodeEquals (Some e) quicksight.ErrCodeResourceNotFoundException)
    eqn:Hcode.
  - split; [reflexivity |].
    intros Hnot. destruct Hnot. apply ErrCodeEquals_notFound, Hcode.
  - split.
    + intros Hnf%ErrCodeEquals_notFound. congruence.
    + intros _. rewrite AppendErrorf_deleting. eexists. repeat split; reflexivity.
Qed.

Lemma delete_not_found_is_success_witness :
  let d := sampleData "123456789012/default/tf-group" false ∅ in
  exec (answers None None None
          (Some (awsError "ResourceNotFoundException" "group not found")))
    (resourceGroupDelete d sampleMeta) tt
  = (Returned (d, []), tt, [deleteRequest "123456789012" "default" "tf-group"]).
Proof.
  intros d.
  refine (proj1 (delete_not_found_is_success
                   (answers None None None
                      (Some (awsError "ResourceNotFoundException" "group not found")))
                   tt tt d sampleMeta "123456789012" "default" "tf-group"
                   {| quicksight.Delete_Status := None |}
                   (awsError "ResourceNotFoundException" "group not found")
                   _ eq_refl) _).
  - repeat split; reflexivity.
  - exists "group not found". reflexivity.
Defined.

(** ** Namespace validation *)
Section ValidationFacts.

Lemma ascii_code (c x : ascii) : c = x <-> nat_of_ascii c = nat_of_ascii x.
Proof.
  split; [intros ->; reflexivity |].
  intros H. rewrite <- (ascii_nat_embedding c), <- (ascii_nat_embedding x), H.
  reflexivity.
Qed.

Lemma inClass_namespaceByte c :
  regexp.inClass namespacePattern c = true <-> namespaceByte c.
Proof.
  unfold regexp.inClass, namespacePattern, namespaceByte.
  cbn [existsb regexp.inItem].
  rewrite !orb_true_iff, !andb_true_iff, !N.leb_le, !Ascii.eqb_eq, !ascii_code.
  change (nat_of_ascii ".") with 46%nat.
  change (nat_of_ascii "_") with 95%nat.
  change (nat_of_ascii "-") with 45%nat.
  change (N_of_ascii "a") with 97%N. change (N_of_ascii "z") with 122%N.
  change (N_of_ascii "A") with 65%N. change (N_of_ascii "Z") with 90%N.
  change (N_of_ascii "0") with 48%N. change (N_of_ascii "9") with 57%N.
  unfold nat_of_ascii. cbv zeta. lia.
Qed.

Lemma MatchString_namespace v :
  regexp.MatchString namespacePattern v = true
  <-> forall c, In c (list_ascii_of_string v) -> namespaceByte c.
Proof.
  unfold regexp.MatchString. rewrite forallb_forall.
  split; intros H c Hc; apply inClass_namespaceByte, H, Hc.
Qed.

Lemma SchemaFunc_namespace :
  exists s, SchemaFunc !! "namespace" = Some s
            /\ schema.ValidateFunc s
               = Some (validation.All
                         [ validation.StringLenBetween 1 63;
                           validation.StringMatch namespacePattern
                             "must contain only alphanumeric characters, hyphens, underscores, and periods" ]).
Proof. eexists. split; reflexivity. Qed.

Lemma namespaceAccepts_unfold v :
  namespaceAccepts v
  = negb ((GoStrings.len v <? 1) || (GoStrings.len v >? 63))
    && regexp.MatchString namespacePattern v.
Proof.
  unfold namespaceAccepts.
  destruct SchemaFunc_namespace as (s & -> & ->).
  unfold validation.All, validation.StringLenBetween, validation.StringMatch.
  cbn [fold_left].
  destruct ((GoStrings.len v <? 1) || (GoStrings.len v >? 63));
    destruct (regexp.MatchString namespacePattern v); reflexivity.
Qed.

Lemma namespaceAccepts_iff v :
  namespaceAccepts v = true
  <-> (1 <= String.length v <= 63)%nat
      /\ forall c, In c (list_ascii_of_string v) -> namespaceByte c.
Proof.
  rewrite namespaceAccepts_unfold, andb_true_iff, negb_true_iff,
    orb_false_iff, <- MatchString_namespace.
  unfold GoStrings.len. rewrite Z.ltb_ge, Z.gtb_ltb, Z.ltb_ge. intuition lia.
Qed.

(** An error of the validator ends up in the diagnostics of
    validation. *)
Lemma Validate_namespace_error (config : gmap string string) v :
  config !! "namespace" = Some v -> namespaceAccepts v = false ->
  diag.HasError (sdk.Validate SchemaFunc config) = true.
Proof.
  intros Hcfg Hrej. unfold namespaceAccepts in Hrej.
  destruct SchemaFunc_namespace as (s & Hs & Hf). rewrite Hs, Hf in Hrej.
  apply bool_decide_eq_false in Hrej.
  set (f := validation.All _) in *.
  destruct (f v "namespace") as [ws es] eqn:Hfv. cbn [snd] in Hrej.
  destruct es as [| e es]; [contradiction |].
  unfold diag.HasError, sdk.Validate. apply existsb_exists.
  exists {| diag.Severity_ := diag.Error; diag.Summary := Error e;
            diag.Detail := EmptyString |}.
  split; [| reflexivity].
  apply in_flat_map. exists ("namespace", v). split.
  - apply list_elem_of_In, elem_of_map_to_list, Hcfg.
  - unfold sdk.validateAttr. cbn [fst snd]. rewrite Hs, Hf. fold f. rewrite Hfv.
    apply in_or_app. right. left. reflexivity.
Qed.

End ValidationFacts.

(** C9: the validator of the [namespace] attribute rejects every string
    of length 0 or above 63 and every string with a byte outside
    [a-zA-Z0-9._-], and accepts every string of length 1 to 63 made of
    such bytes; when it rejects the configured namespace, validation
    reports an error and the create handler is not reached: no request
    goes to the service. *)
Theorem namespace_validation (v : string) :
  ((String.length v = 0%nat \/ (63 < String.length v)%nat
    \/ exists c, In c (list_ascii_of_string v) /\ ~ namespaceByte c) ->
   namespaceAccepts v = false)
  /\ ((1 <= String.length v <= 63)%nat ->
      (forall c, In c (list_ascii_of_string v) -> namespaceByte c) ->
      namespaceAccepts v = true)
  /\ (namespaceAccepts v = false ->
      forall (W : Type) (svc : Service W) (w : W)
             (config : gmap string string) (meta : conns.AWSClient),
        config !! "namespace" = Some v ->
        exists diags,
          exec svc (sdk.ValidateAndCreate ResourceGroup config meta) w
          = (Returned (sdk.newData ResourceGroup config, diags), w, [])
          /\ diag.HasError diags = true).
Proof.
  split; [| split].
  - intros Hbad. apply not_true_is_false. intros [Hlen Hall]%namespaceAccepts_iff.
    destruct Hbad as [H0 | [H63 | (c & Hc & Hout)]]; [lia | lia |].
    apply Hout, Hall, Hc.
  - intros Hlen Hall. apply namespaceAccepts_iff. split; assumption.
  - intros Hrej W svc w config meta Hcfg.
    pose proof (Validate_namespace_error config v Hcfg Hrej) as Herr.
    unfold sdk.ValidateAndCreate.
    change (Schema ResourceGroup) with SchemaFunc. rewrite Herr.
    eexists. split; [reflexivity | exact Herr].
Qed.

Lemma namespace_validation_witness :
  namespaceAccepts "team a" = false
  /\ namespaceAccepts "team-a_1.x" = true
  /\ exists diags,
       exec (answers None None None None)
         (sdk.ValidateAndCreate ResourceGroup
            (<["namespace" := "team a"]> (<["group_name" := "tf-group"]> ∅))
            sampleMeta) tt
       = (Returned (sdk.newData ResourceGroup
                      (<["namespace" := "team a"]> (<["group_name" := "tf-group"]> ∅)),
                    diags), tt, [])
       /\ diag.HasError diags = true.
Proof.
  split; [| split].
  - apply (proj1 (namespace_validation "team a")).
    right. right. exists " "%char. split.
    + simpl. tauto.
    + vm_compute. lia.
  - apply (proj1 (proj2 (namespace_validation "team-a_1.x"))).
    + simpl. lia.
    + intros c Hc. simpl in Hc.
      repeat (destruct Hc as [<- | Hc]; [vm_compute; lia |]).
      contradiction.
  - apply (proj2 (proj2 (namespace_validation "team a"))); reflexivity.
Defined.

(** * Further properties *)

(** ** The handlers on every identifier *)
Section HandlerCases.

Context {W : Type} (svc : Service W).

Lemma read_malformed d meta w :
  malformedID (schema.Id d) = true ->
  exec svc (resourceGroupRead d meta) w
  = (Returned (d, [errorDiag ("reading QuickSight Group (" +:+ schema.Id d
                              +:+ "): " +:+ Error (formatError (schema.Id d)))]),
     w, []).
Proof.
  intros Hm. unfold resourceGroupRead.
  rewrite (GroupParseID_malformed _ Hm), AppendErrorf_reading. reflexivity.
Qed.

Lemma update_malformed d meta w :
  malformedID (schema.Id d) = true ->
  exec svc (resourceGroupUpdate d meta) w
  = (Returned (d, [errorDiag ("updating QuickSight Group (" +:+ schema.Id d
                              +:+ "): " +:+ Error (formatError (schema.Id d)))]),
     w, []).
Proof.
  intros Hm. unfold resourceGroupUpdate.
  rewrite (GroupParseID_malformed _ Hm), AppendErrorf_updating_id. reflexivity.
Qed.

Lemma delete_malformed d meta w :
  malformedID (schema.Id d) = true ->
  exec svc (resourceGroupDelete d meta) w
  = (Returned (d, [errorDiag ("deleting QuickSight Group (" +:+ schema.Id d
                              +:+ "): " +:+ Error (formatError (schema.Id d)))]),
     w, []).
Proof.
  intros Hm. unfold resourceGroupDelete.
  rewrite (GroupParseID_malformed _ Hm), AppendErrorf_deleting_id. reflexivity.
Qed.

Lemma wellFormed_of_parse id :
  malformedID id = false -> exists a n g, wellFormed id a n g.
Proof.
  intros Hm. destruct (GroupParseID_wellformed _ Hm)
    as (a & n & g & Hid & Ha & Hn & Hea & Hen & Heg & _).
  exists a, n, g. repeat split; assumption.
Qed.

(** The delete handler on a well-formed identifier. *)
Lemma delete_steps d meta a n g w resp err w1 :
  wellFormed (schema.Id d) a n g ->
  svc (deleteRequest a n g) w = ((resp, err), w1) ->
  exec svc (resourceGroupDelete d meta) w
  = (Returned
       (d, match err with
           | Some e =>
               if tfawserr.ErrCodeEquals (Some e)
                    quicksight.ErrCodeResourceNotFoundException
               then []
               else [errorDiag ("deleting QuickSight Group " +:+ schema.Id d
                                +:+ ": " +:+ Error e)]
           | None => []
           end),
     w1, [deleteRequest a n g]).
Proof.
  intros Hwf Hsvc. unfold resourceGroupDelete.
  rewrite (GroupParseID_parts _ _ _ _ Hwf). cbv iota beta.
  rewrite (exec_call svc (deleteRequest a n g) _ w _ _ Hsvc).
  destruct err as [e |]; [| reflexivity].
  destruct (tfawserr.ErrCodeEquals (Some e) _); [reflexivity |].
  rewrite AppendErrorf_deleting. reflexivity.
Qed.

(** The update handler on a well-formed identifier. *)
Lemma update_steps d meta a n g w resp err w1 :
  schema.schema_ d = SchemaFunc ->
  wellFormed (schema.Id d) a n g ->
  svc (updateRequest a n g (configured d "description")) w = ((resp, err), w1) ->
  exec svc (resourceGroupUpdate d meta) w
  = match err with
    | Some e =>
        (Returned (d, [errorDiag ("updating QuickSight Group " +:+ schema.Id d
                                  +:+ ": " +:+ Error e)]),
         w1, [updateRequest a n g (configured d "description")])
    | None =>
        let '(o, w2, t) := exec svc (resourceGroupRead d meta) w1 in
        (o, w2, updateRequest a n g (configured d "description") :: t)
    end.
Proof.
  intros Hs Hwf Hsvc. unfold resourceGroupUpdate.
  rewrite (GroupParseID_parts _ _ _ _ Hwf). cbv iota beta.
  rewrite (GetOk_description _ Hs).
  rewrite (exec_call svc (updateRequest a n g (configured d "description"))
             _ w _ _ Hsvc).
  destruct err as [e |]; [rewrite AppendErrorf_updating; reflexivity |].
  change (exec svc (?p ≫= ?f) w1) with (exec svc (bind p f) w1).
  rewrite exec_bind.
  destruct (exec svc (resourceGroupRead d meta) w1) as [[[[d2 rdiags] |] w2] t];
    cbn [exec app]; rewrite ?app_nil_r; reflexivity.
Qed.

Lemma IsNewResource_Set_ d key v :
  schema.IsNewResource (schema.Set_ d key v) = schema.IsNewResource d.
Proof. unfold schema.Set_. destruct (schema.schema_ d !! key); reflexivity. Qed.

Lemma schema_Set_ d key v :
  schema.schema_ (schema.Set_ d key v) = schema.schema_ d.
Proof. unfold schema.Set_. destruct (schema.schema_ d !! key); reflexivity. Qed.

(** Against a sound service the read handler returns, with at most one
    diagnostic and after at most one call. *)
Lemma read_returns d meta w :
  describeSound svc ->
  exists d' diags w' t,
    exec svc (resourceGroupRead d meta) w = (Returned (d', diags), w', t)
    /\ (length diags <= 1)%nat /\ (length t <= 1)%nat.
Proof.
  intros Hsound. destruct (malformedID (schema.Id d)) eqn:Hm.
  - rewrite (read_malformed _ _ _ Hm). do 4 eexists.
    split; [reflexivity |]. simpl. lia.
  - destruct (wellFormed_of_parse _ Hm) as (a & n & g & Hwf).
    destruct (svc (describeRequest a n g) w) as [[resp err] w1] eqn:Hsvc.
    rewrite (read_wellformed svc d meta a n g w resp err w1 Hwf Hsvc).
    destruct (negb (schema.IsNewResource d) && _).
    { do 4 eexists. split; [reflexivity |]. simpl. lia. }
    destruct err as [e |].
    { do 4 eexists. split; [reflexivity |]. simpl. lia. }
    unfold describeRequest in Hsvc.
    match type of Hsvc with
    | svc (quicksight.DescribeGroupWithContext ?input) _ = _ =>
        pose proof (Hsound input w) as Hg
    end.
    rewrite Hsvc in Hg. cbn [fst snd] in Hg. specialize (Hg eq_refl).
    destruct (quicksight.Describe_Group resp) as [group |]; [| congruence].
    do 4 eexists. split; [reflexivity |]. simpl. lia.
Qed.

(** A read whose describe call succeeds with a group stores it. *)
Lemma read_stores_group d meta a n g w resp group w1 :
  schema.schema_ d = SchemaFunc ->
  wellFormed (schema.Id d) a n g ->
  svc (describeRequest a n g) w = ((resp, None), w1) ->
  quicksight.Describe_Group resp = Some group ->
  exec svc (resourceGroupRead d meta) w
  = (Returned (withGroup d a n group, []), w1, [describeRequest a n g]).
Proof.
  intros Hs Hwf Hsvc Hgroup.
  rewrite (read_wellformed svc d meta a n g w resp None w1 Hwf Hsvc), Hgroup.
  cbn [tfawserr.ErrCodeEquals]. rewrite andb_false_r.
  rewrite (Set__known d "arn") by (exact Hs || (eexists; reflexivity)).
  rewrite !Set__known by (reflexivity || (eexists; reflexivity)).
  unfold withGroup. rewrite Hs. reflexivity.
Qed.

Lemma withGroup_again d a n group :
  withGroup (withGroup d a n group) a n group = withGroup d a n group.
Proof.
  unfold withGroup. cbn [schema.schema_ schema.id schema.isNew schema.attrs].
  f_equal. apply map_eq. intros k.
  destruct (decide (k = "namespace")) as [-> | ?]; [by simplify_map_eq |].
  destruct (decide (k = "description")) as [-> | ?]; [by simplify_map_eq |].
  destruct (decide (k = "group_name")) as [-> | ?]; [by simplify_map_eq |].
  destruct (decide (k = "aws_account_id")) as [-> | ?]; [by simplify_map_eq |].
  destruct (decide (k = "arn")) as [-> | ?]; by simplify_map_eq.
Qed.

End HandlerCases.

(** ** More on the identifier *)

(** The parser is total on strings and its two outcomes are told apart
    by the shape of the identifier alone: it returns a nil error exactly
    on the identifiers that are not malformed, and whenever it returns
    an error its three strings are empty. *)
Theorem GroupParseID_accepts_iff (id : string) :
  (snd (GroupParseID id) = None <-> malformedID id = false)
  /\ (snd (GroupParseID id) <> None ->
      GroupParseID id
      = (EmptyString, EmptyString, EmptyString,
         Some (errorString ("unexpected format of ID (" +:+ id
                            +:+ "), expected AWS_ACCOUNT_ID/NAMESPACE/GROUP_NAME")))).
Proof.
  destruct (malformedID id) eqn:Hm.
  - rewrite (GroupParseID_malformed _ Hm). split; [| intros _; reflexivity].
    split; discriminate.
  - destruct (GroupParseID_wellformed _ Hm) as (a & n & g & _ & _ & _ & _ & _ & _ & ->).
    split; [split; reflexivity |]. intros H. destruct H. reflexivity.
Qed.

(** Whatever the parser accepts it can be rebuilt from: the three parts
    joined by slashes are the identifier, the account and the namespace
    hold no slash, and no part is empty. *)
Theorem GroupParseID_rebuilds (id a n g : string) :
  GroupParseID id = (a, n, g, None) ->
  id = a +:+ "/" +:+ n +:+ "/" +:+ g
  /\ slashFree a = true /\ slashFree n = true
  /\ a <> EmptyString /\ n <> EmptyString /\ g <> EmptyString.
Proof.
  intros Hp. destruct (malformedID id) eqn:Hm.
  - rewrite (GroupParseID_malformed _ Hm) in Hp. discriminate.
  - destruct (GroupParseID_wellformed _ Hm)
      as (a' & n' & g' & Hid & Ha & Hn & Hea & Hen & Heg & Hp').
    rewrite Hp' in Hp. injection Hp as <- <- <-.
    split; [exact Hid |]. split; [exact Ha |]. split; [exact Hn |].
    unfold isEmpty in *. rewrite String.eqb_neq in Hea, Hen, Heg.
    repeat split; assumption.
Qed.

Lemma GroupParseID_rebuilds_witness :
  "123456789012/default/team/a" = "123456789012" +:+ "/" +:+ "default" +:+ "/" +:+ "team/a"
  /\ slashFree "123456789012" = true /\ slashFree "default" = true
  /\ "123456789012" <> EmptyString /\ "default" <> EmptyString
  /\ "team/a" <> EmptyString.
Proof.
  exact (GroupParseID_rebuilds "123456789012/default/team/a"
           "123456789012" "default" "team/a" eq_refl).
Defined.

(** The identifier the create handler formats is a key: two triples
    with slash-free accounts and namespaces that format to the same
    identifier are the same triple, whatever the group names hold. *)
Theorem identifier_is_injective (a n g a' n' g' : string) :
  slashFree a = true -> slashFree n = true ->
  slashFree a' = true -> slashFree n' = true ->
  fmt.Sprintf "%s/%s/%s" [fmt.Str a; fmt.Str n; fmt.Str g]
  = fmt.Sprintf "%s/%s/%s" [fmt.Str a'; fmt.Str n'; fmt.Str g'] ->
  a = a' /\ n = n' /\ g = g'.
Proof.
  intros Ha Hn Ha' Hn'. rewrite !Sprintf_id. intros Heq.
  apply (f_equal (fun s => GoStrings.SplitN s "/" 3)) in Heq.
  change (formatID a n g) with (a +:+ String "/" (n +:+ String "/" g)) in Heq.
  change (formatID a' n' g') with (a' +:+ String "/" (n' +:+ String "/" g')) in Heq.
  rewrite (SplitN_3_two_slashes _ _ _ Ha Hn),
    (SplitN_3_two_slashes _ _ _ Ha' Hn') in Heq.
  injection Heq as -> -> ->. repeat split.
Qed.

Lemma identifier_is_injective_witness :
  "123456789012" = "123456789012" /\ "default" = "default" /\ "a/b" = "a/b".
Proof.
  exact (identifier_is_injective "123456789012" "default" "a/b"
           "123456789012" "default" "a/b" eq_refl eq_refl eq_refl eq_refl eq_refl).
Defined.

(** A namespace the schema's validator accepts is fit to be the middle
    segment of an identifier: it is not empty and holds no slash. *)
Theorem accepted_namespace_is_a_segment (v : string) :
  namespaceAccepts v = true -> slashFree v = true /\ isEmpty v = false.
Proof.
  intros [Hlen Hall]%namespaceAccepts_iff. split.
  - clear Hlen. induction v as [| c v IH]; [reflexivity |].
    simpl. rewrite IH by (intros x Hx; apply Hall; right; exact Hx).
    destruct (Ascii.eqb c "/") eqn:Hc; [| reflexivity].
    apply Ascii.eqb_eq in Hc as ->.
    specialize (Hall "/"%char (or_introl eq_refl)).
    unfold namespaceByte in Hall. change (nat_of_ascii "/") with 47%nat in Hall.
    cbv zeta in Hall. lia.
  - destruct v; [simpl in Hlen; lia | reflexivity].
Qed.

Lemma accepted_namespace_is_a_segment_witness :
  slashFree "team-a_1.x" = true /\ isEmpty "team-a_1.x" = false.
Proof. exact (accepted_namespace_is_a_segment "team-a_1.x" eq_refl). Defined.

(** ** More on read *)

(** A describe call that fails with anything but the not-found error is
    reported, new resource or not: one diagnostic of error severity with
    the error's text, the data and its identifier untouched. *)
Theorem read_other_failure {W : Type} (svc : Service W) (w w1 : W)
    (d : schema.ResourceData) (meta : conns.AWSClient) (a n g : string)
    (resp : quicksight.DescribeGroupOutput) (e : error) :
  wellFormed (schema.Id d) a n g ->
  ~ notFound e ->
  svc (describeRequest a n g) w = ((resp, Some e), w1) ->
  exec svc (resourceGroupRead d meta) w
  = (Returned (d, [errorDiag ("reading QuickSight Group (" +:+ schema.Id d
                              +:+ "): " +:+ Error e)]),
     w1, [describeRequest a n g]).
Proof.
  intros Hwf Hnot Hsvc.
  rewrite (read_wellformed svc d meta a n g w resp (Some e) w1 Hwf Hsvc).
  destruct (tfawserr.ErrCodeEquals (Some e) _) eqn:Hcode.
  - destruct Hnot. apply ErrCodeEquals_notFound, Hcode.
  - rewrite andb_false_r. reflexivity.
Qed.

Lemma read_other_failure_witness :
  let d := sampleData "123456789012/default/tf-group" false ∅ in
  exec (answers None (Some (errorString "ResourceNotFoundException")) None None)
    (resourceGroupRead d sampleMeta) tt
  = (Returned
       (d, [errorDiag "reading QuickSight Group (123456789012/default/tf-group): ResourceNotFoundException"]),
     tt, [describeRequest "123456789012" "default" "tf-group"]).
Proof.
  intros d.
  refine (read_other_failure
            (answers None (Some (errorString "ResourceNotFoundException")) None None)
            tt tt d sampleMeta "123456789012" "default" "tf-group"
            {| quicksight.Describe_Group := None |}
            (errorString "ResourceNotFoundException") _ _ eq_refl).
  - repeat split; reflexivity.
  - intros [message Hm]. discriminate.
Defined.

(** What a read can do, whatever the identifier and the service: it
    sends nothing or the one describe request for the parsed identifier;
    if it returns, it returns at most one diagnostic, of error severity,
    and then the data is untouched; the identifier is the old one or,
    for a resource that is not new, the empty string; the new-resource
    mark and the schema stay. It panics only after a describe call. *)
Theorem read_invariants {W : Type} (svc : Service W) (w : W)
    (d : schema.ResourceData) (meta : conns.AWSClient) :
  exists o w' t,
    exec svc (resourceGroupRead d meta) w = (o, w', t)
    /\ (t = []
        \/ exists a n g, GroupParseID (schema.Id d) = (a, n, g, None)
                         /\ t = [describeRequest a n g])
    /\ match o with
       | Returned (d', diags) =>
           (length diags <= 1)%nat
           /\ Forall (fun x => diag.isError x = true) diags
           /\ (diags <> [] -> d' = d)
           /\ (schema.Id d' = schema.Id d
               \/ (schema.Id d' = EmptyString /\ schema.IsNewResource d = false))
           /\ schema.IsNewResource d' = schema.IsNewResource d
           /\ schema.schema_ d' = schema.schema_ d
       | Panicked => t <> []
       end.
Proof.
  destruct (malformedID (schema.Id d)) eqn:Hm.
  - rewrite (read_malformed svc _ _ _ Hm). do 3 eexists.
    split; [reflexivity |]. split; [left; reflexivity |].
    repeat split; try (simpl; lia); auto.
  - destruct (wellFormed_of_parse _ Hm) as (a & n & g & Hwf).
    destruct (svc (describeRequest a n g) w) as [[resp err] w1] eqn:Hsvc.
    rewrite (read_wellformed svc d meta a n g w resp err w1 Hwf Hsvc).
    do 3 eexists. split; [reflexivity |]. split.
    { right. exists a, n, g. split; [apply GroupParseID_parts, Hwf | reflexivity]. }
    destruct (schema.IsNewResource d) eqn:Hnew; cbn [negb andb].
    + destruct err as [e |].
      * repeat split; try (simpl; lia); auto.
      * destruct (quicksight.Describe_Group resp) as [group |]; [| discriminate].
        rewrite !Id_Set_, !IsNewResource_Set_, !schema_Set_.
        repeat split; try (simpl; lia); auto. intros H; destruct H; reflexivity.
    + destruct (tfawserr.ErrCodeEquals err _).
      * repeat split; try (simpl; lia); auto. intros H; destruct H; reflexivity.
      * destruct err as [e |].
        -- repeat split; try (simpl; lia); auto.
        -- destruct (quicksight.Describe_Group resp) as [group |]; [| discriminate].
           rewrite !Id_Set_, !IsNewResource_Set_, !schema_Set_.
           repeat split; try (simpl; lia); auto. intros H; destruct H; reflexivity.
Qed.

(** A describe answer with neither an error nor a group makes the read
    panic: the handler dereferences the group without a nil check. *)
Theorem read_without_group_panics {W : Type} (svc : Service W) (w w1 : W)
    (d : schema.ResourceData) (meta : conns.AWSClient) (a n g : string)
    (resp : quicksight.DescribeGroupOutput) :
  wellFormed (schema.Id d) a n g ->
  svc (describeRequest a n g) w = ((resp, None), w1) ->
  quicksight.Describe_Group resp = None ->
  exec svc (resourceGroupRead d meta) w = (Panicked, w1, [describeRequest a n g]).
Proof.
  intros Hwf Hsvc Hnil.
  rewrite (read_wellformed svc d meta a n g w resp None w1 Hwf Hsvc), Hnil.
  cbn [tfawserr.ErrCodeEquals]. rewrite andb_false_r. reflexivity.
Qed.

Lemma read_without_group_panics_witness :
  exec (fixedService ({| quicksight.Create_Group := None |}, None)
          ({| quicksight.Describe_Group := None |}, None)
          ({| quicksight.Update_Group := None |}, None)
          ({| quicksight.Delete_Status := None |}, None))
    (resourceGroupRead (sampleData "123456789012/default/tf-group" false ∅) sampleMeta) tt
  = (Panicked, tt, [describeRequest "123456789012" "default" "tf-group"]).
Proof.
  refine (read_without_group_panics _ tt tt
            (sampleData "123456789012/default/tf-group" false ∅) sampleMeta
            "123456789012" "default" "tf-group"
            {| quicksight.Describe_Group := None |} _ eq_refl eq_refl).
  repeat split; reflexivity.
Defined.

(** Against a service whose successful describe answers carry a group,
    a read always returns. *)
Theorem read_returns_if_sound {W : Type} (svc : Service W) (w : W)
    (d : schema.ResourceData) (meta : conns.AWSClient) :
  describeSound svc ->
  exists d' diags w' t,
    exec svc (resourceGroupRead d meta) w = (Returned (d', diags), w', t).
Proof.
  intros Hsound.
  destruct (read_returns svc d meta w Hsound) as (d' & diags & w' & t & H & _).
  eauto.
Qed.

Lemma read_returns_if_sound_witness :
  exists d' diags w' t,
    exec (answers None None None None)
      (resourceGroupRead (sampleData "123456789012/default/tf-group" false ∅) sampleMeta) tt
    = (Returned (d', diags), w', t).
Proof.
  refine (read_returns_if_sound (answers None None None None) tt
            (sampleData "123456789012/default/tf-group" false ∅) sampleMeta _).
  intros input w _. simpl. discriminate.
Defined.

(** A refresh is stable: when a read has stored a describe answer, a
    second read that gets the same group returns the data the first one
    left, unchanged and without diagnostics. *)
Theorem read_twice_is_read_once {W : Type} (svc : Service W) (w w1 w2 : W)
    (d : schema.ResourceData) (meta : conns.AWSClient) (a n g : string)
    (resp resp' : quicksight.DescribeGroupOutput) (group : quicksight.Group) :
  schema.schema_ d = SchemaFunc ->
  wellFormed (schema.Id d) a n g ->
  svc (describeRequest a n g) w = ((resp, None), w1) ->
  quicksight.Describe_Group resp = Some group ->
  svc (describeRequest a n g) w1 = ((resp', None), w2) ->
  quicksight.Describe_Group resp' = Some group ->
  exists d1,
    exec svc (resourceGroupRead d meta) w
    = (Returned (d1, []), w1, [describeRequest a n g])
    /\ exec svc (resourceGroupRead d1 meta) w1
       = (Returned (d1, []), w2, [describeRequest a n g]).
Proof.
  intros Hs Hwf Hsvc Hgroup Hsvc' Hgroup'.
  exists (withGroup d a n group).
  rewrite (read_stores_group svc d meta a n g w resp group w1 Hs Hwf Hsvc Hgroup).
  split; [reflexivity |].
  rewrite (read_stores_group svc (withGroup d a n group) meta a n g w1 resp'
             group w2 Hs Hwf Hsvc' Hgroup').
  rewrite withGroup_again. reflexivity.
Qed.

Lemma read_twice_is_read_once_witness :
  exists d1,
    exec (answers None None None None)
      (resourceGroupRead (sampleData "123456789012/default/tf-group" false ∅) sampleMeta) tt
    = (Returned (d1, []), tt, [describeRequest "123456789012" "default" "tf-group"])
    /\ exec (answers None None None None) (resourceGroupRead d1 sampleMeta) tt
       = (Returned (d1, []), tt, [describeRequest "123456789012" "default" "tf-group"]).
Proof.
  refine (read_twice_is_read_once (answers None None None None) tt tt tt
            (sampleData "123456789012/default/tf-group" false ∅) sampleMeta
            "123456789012" "default" "tf-group"
            {| quicksight.Describe_Group := Some sampleGroup |}
            {| quicksight.Describe_Group := Some sampleGroup |} sampleGroup
            eq_refl _ eq_refl eq_refl eq_refl eq_refl).
  repeat split; reflexivity.
Defined.

(** ** More on update *)

(** A failing update call is reported and nothing else happens: one
    diagnostic of error severity with the error's text, no read, the
    data as it was. *)
Theorem update_failure_is_reported {W : Type} (svc : Service W) (w w1 : W)
    (d : schema.ResourceData) (meta : conns.AWSClient) (a n g : string)
    (resp : quicksight.UpdateGroupOutput) (e : error) :
  schema.schema_ d = SchemaFunc ->
  wellFormed (schema.Id d) a n g ->
  svc (updateRequest a n g (configured d "description")) w = ((resp, Some e), w1) ->
  exec svc (resourceGroupUpdate d meta) w
  = (Returned (d, [errorDiag ("updating QuickSight Group " +:+ schema.Id d
                              +:+ ": " +:+ Error e)]),
     w1, [updateRequest a n g (configured d "description")]).
Proof.
  intros Hs Hwf Hsvc.
  exact (update_steps svc d meta a n g w resp (Some e) w1 Hs Hwf Hsvc).
Qed.

Lemma update_failure_is_reported_witness :
  let d := sampleData "123456789012/default/tf-group" false ∅ in
  let e := awsError "ResourceNotFoundException" "group not found" in
  exec (answers None None (Some e) None) (resourceGroupUpdate d sampleMeta) tt
  = (Returned
       (d, [errorDiag "updating QuickSight Group 123456789012/default/tf-group: ResourceNotFoundException: group not found"]),
     tt, [updateRequest "123456789012" "default" "tf-group" None]).
Proof.
  intros d e.
  refine (update_failure_is_reported (answers None None (Some e) None) tt tt d
            sampleMeta "123456789012" "default" "tf-group"
            {| quicksight.Update_Group := None |} e eq_refl _ eq_refl).
  repeat split; reflexivity.
Defined.

(** A successful update hands over to the read: outcome, data,
    diagnostics and the service's final state are those of a read run
    on the same data once the update call is over, and the requests are
    the update request followed by the read's. *)
Theorem update_success_is_a_read {W : Type} (svc : Service W) (w w1 : W)
    (d : schema.ResourceData) (meta : conns.AWSClient) (a n g : string)
    (resp : quicksight.UpdateGroupOutput) :
  schema.schema_ d = SchemaFunc ->
  wellFormed (schema.Id d) a n g ->
  svc (updateRequest a n g (configured d "description")) w = ((resp, None), w1) ->
  exec svc (resourceGroupUpdate d meta) w
  = (fst (fst (exec svc (resourceGroupRead d meta) w1)),
     snd (fst (exec svc (resourceGroupRead d meta) w1)),
     updateRequest a n g (configured d "description")
       :: snd (exec svc (resourceGroupRead d meta) w1)).
Proof.
  intros Hs Hwf Hsvc.
  rewrite (update_steps svc d meta a n g w resp None w1 Hs Hwf Hsvc).
  destruct (exec svc (resourceGroupRead d meta) w1) as [[o w2] t]. reflexivity.
Qed.

Lemma update_success_is_a_read_witness :
  let d := sampleData "123456789012/default/tf-group" false
             (<["description" := "new text"]> ∅) in
  let gone := awsError "ResourceNotFoundException" "group not found" in
  exec (answers None (Some gone) None None) (resourceGroupUpdate d sampleMeta) tt
  = (Returned (schema.SetId d EmptyString, []), tt,
     [updateRequest "123456789012" "default" "tf-group" (Some "new text");
      describeRequest "123456789012" "default" "tf-group"]).
Proof.
  intros d gone.
  refine (update_success_is_a_read (answers None (Some gone) None None) tt tt d
            sampleMeta "123456789012" "default" "tf-group"
            {| quicksight.Update_Group := Some sampleGroup |} eq_refl _ eq_refl).
  repeat split; reflexivity.
Defined.

(** ** More on delete *)

(** A delete call that succeeds yields no diagnostics. *)
Theorem delete_success {W : Type} (svc : Service W) (w w1 : W)
    (d : schema.ResourceData) (meta : conns.AWSClient) (a n g : string)
    (resp : quicksight.DeleteGroupOutput) :
  wellFormed (schema.Id d) a n g ->
  svc (deleteRequest a n g) w = ((resp, None), w1) ->
  exec svc (resourceGroupDelete d meta) w
  = (Returned (d, []), w1, [deleteRequest a n g]).
Proof.
  intros Hwf Hsvc.
  exact (delete_steps svc d meta a n g w resp None w1 Hwf Hsvc).
Qed.

Lemma delete_success_witness :
  let d := sampleData "123456789012/default/tf-group" false ∅ in
  exec (answers None None None None) (resourceGroupDelete d sampleMeta) tt
  = (Returned (d, []), tt, [deleteRequest "123456789012" "default" "tf-group"]).
Proof.
  intros d.
  refine (delete_success (answers None None None None) tt tt d sampleMeta
            "123456789012" "default" "tf-group"
            {| quicksight.Delete_Status := None |} _ eq_refl).
  repeat split; reflexivity.
Defined.

(** What a delete can do, whatever the identifier and the service: it
    never panics, it hands the data back exactly as it got it (the
    identifier is not cleared by the handler), it sends at most one
    request, a delete request, and returns at most one diagnostic, of
    error severity. *)
Theorem delete_invariants {W : Type} (svc : Service W) (w : W)
    (d : schema.ResourceData) (meta : conns.AWSClient) :
  exists diags w' t,
    exec svc (resourceGroupDelete d meta) w = (Returned (d, diags), w', t)
    /\ (length t <= 1)%nat /\ forallb isDelete t = true
    /\ (length diags <= 1)%nat
    /\ Forall (fun x => diag.isError x = true) diags
    /\ (t = [] -> diags <> []).
Proof.
  destruct (malformedID (schema.Id d)) eqn:Hm.
  - rewrite (delete_malformed svc _ _ _ Hm). do 3 eexists.
    split; [reflexivity |]. repeat split; try (simpl; lia); auto.
  - destruct (wellFormed_of_parse _ Hm) as (a & n & g & Hwf).
    destruct (svc (deleteRequest a n g) w) as [[resp err] w1] eqn:Hsvc.
    rewrite (delete_steps svc d meta a n g w resp err w1 Hwf Hsvc).
    do 3 eexists. split; [reflexivity |].
    destruct err as [e |]; [destruct (tfawserr.ErrCodeEquals (Some e) _) |];
      repeat split; try (simpl; lia); auto; discriminate.
Qed.

(** ** More on create *)

(** The read that follows a successful create asks for the very group
    that was created: when the account and the namespace are non-empty
    and free of slashes and the response echoes a non-empty name, the
    handler sends the create request and then the describe request for
    that account, namespace and echoed name, and nothing else. *)
Theorem create_reads_what_it_created {W : Type} (svc : Service W) (w w1 : W)
    (d : schema.ResourceData) (meta : conns.AWSClient)
    (resp : quicksight.CreateGroupOutput) (group : quicksight.Group) :
  schema.schema_ d = SchemaFunc ->
  svc (createRequest d meta) w = ((resp, None), w1) ->
  quicksight.Create_Group resp = Some group ->
  slashFree (accountOf d meta) = true -> isEmpty (accountOf d meta) = false ->
  slashFree (namespaceOf d) = true -> isEmpty (namespaceOf d) = false ->
  isEmpty (aws.StringValue (quicksight.GroupName group)) = false ->
  exists o w',
    exec svc (resourceGroupCreate d meta) w
    = (o, w',
       [createRequest d meta;
        describeRequest (accountOf d meta) (namespaceOf d)
          (aws.StringValue (quicksight.GroupName group))]).
Proof.
  intros Hs Hsvc Hgroup Ha Hea Hn Hen Heg.
  rewrite (create_steps svc d meta w resp None w1 Hs Hsvc), Hgroup. cbv zeta.
  set (d1 := schema.SetId d _).
  destruct (read_calls_describe svc d1 meta (accountOf d meta) (namespaceOf d)
              (aws.StringValue (quicksight.GroupName group)) w1)
    as (o & w2 & ->).
  - repeat split; assumption.
  - eauto.
Qed.

Lemma create_reads_what_it_created_witness :
  let d := sampleData EmptyString true
             (<["namespace" := "finance"]> (<["group_name" := "tf-group"]> ∅)) in
  exists o w',
    exec (answers None None None None) (resourceGroupCreate d sampleMeta) tt
    = (o, w',
       [createRequest d sampleMeta;
        describeRequest "123456789012" "finance" "tf-group"]).
Proof.
  intros d.
  exact (create_reads_what_it_created (answers None None None None) tt tt d
           sampleMeta {| quicksight.Create_Group := Some sampleGroup |} sampleGroup
           eq_refl eq_refl eq_refl eq_refl eq_refl eq_refl eq_refl eq_refl).
Defined.

(** A create response that echoes no group name (a nil pointer or the
    empty string) leaves an identifier that ends in a slash: with a
    slash-free account and namespace the follow-up read rejects it
    without calling the service, so the handler returns the read's
    format error and the data keeps the unusable identifier. *)
Theorem create_without_group_name {W : Type} (svc : Service W) (w w1 : W)
    (d : schema.ResourceData) (meta : conns.AWSClient)
    (resp : quicksight.CreateGroupOutput) (group : quicksight.Group) :
  schema.schema_ d = SchemaFunc ->
  svc (createRequest d meta) w = ((resp, None), w1) ->
  quicksight.Create_Group resp = Some group ->
  slashFree (accountOf d meta) = true -> slashFree (namespaceOf d) = true ->
  aws.StringValue (quicksight.GroupName group) = EmptyString ->
  let id := accountOf d meta +:+ "/" +:+ namespaceOf d +:+ "/" in
  exec svc (resourceGroupCreate d meta) w
  = (Returned
       (schema.SetId d id,
        [errorDiag ("reading QuickSight Group (" +:+ id
                    +:+ "): unexpected format of ID (" +:+ id
                    +:+ "), expected AWS_ACCOUNT_ID/NAMESPACE/GROUP_NAME")]),
     w1, [createRequest d meta]).
Proof.
  intros Hs Hsvc Hgroup Ha Hn Hname id.
  rewrite (create_steps svc d meta w resp None w1 Hs Hsvc), Hgroup, Hname.
  cbv zeta.
  change (formatID (accountOf d meta) (namespaceOf d) EmptyString) with id.
  rewrite (read_malformed svc (schema.SetId d id) meta w1).
  - reflexivity.
  - change (schema.Id (schema.SetId d id))
      with (formatID (accountOf d meta) (namespaceOf d) EmptyString).
    rewrite (malformedID_three _ _ _ Ha Hn). apply orb_true_r.
Qed.

Lemma create_without_group_name_witness :
  let d := sampleData EmptyString true (<["group_name" := "tf-group"]> ∅) in
  let nameless :=
    {| quicksight.Arn := None; quicksight.Description := None;
       quicksight.GroupName := None; quicksight.PrincipalId := None |} in
  exec (fixedService ({| quicksight.Create_Group := Some nameless |}, None)
          ({| quicksight.Describe_Group := Some nameless |}, None)
          ({| quicksight.Update_Group := None |}, None)
          ({| quicksight.Delete_Status := None |}, None))
    (resourceGroupCreate d sampleMeta) tt
  = (Returned
       (schema.SetId d "123456789012/default/",
        [errorDiag "reading QuickSight Group (123456789012/default/): unexpected format of ID (123456789012/default/), expected AWS_ACCOUNT_ID/NAMESPACE/GROUP_NAME"]),
     tt, [createRequest d sampleMeta]).
Proof.
  intros d nameless.
  exact (create_without_group_name _ tt tt d sampleMeta
           {| quicksight.Create_Group := Some nameless |} nameless
           eq_refl eq_refl eq_refl eq_refl eq_refl eq_refl).
Defined.



(** Against a service whose successful create and describe answers
    carry a group, a create always returns, new resource or not, after
    the create request and at most one more request, with at most one
    diagnostic. *)
Theorem create_returns_if_sound {W : Type} (svc : Service W) (w : W)
    (d : schema.ResourceData) (meta : conns.AWSClient) :
  schema.schema_ d = SchemaFunc ->
  createSound svc -> describeSound svc ->
  exists d' diags w' t,
    exec svc (resourceGroupCreate d meta) w
    = (Returned (d', diags), w', createRequest d meta :: t)
    /\ (length t <= 1)%nat /\ (length diags <= 1)%nat.
Proof.
  intros Hs Hcreate Hdescribe.
  destruct (svc (createRequest d meta) w) as [[resp err] w1] eqn:Hsvc.
  rewrite (create_steps svc d meta w resp err w1 Hs Hsvc).
  destruct err as [e |].
  { do 4 eexists. split; [reflexivity |]. simpl. lia. }
  unfold createRequest in Hsvc.
  match type of Hsvc with
  | svc (quicksight.CreateGroupWithContext ?input) _ = _ =>
      pose proof (Hcreate input w) as Hg
  end.
  rewrite Hsvc in Hg. cbn [fst snd] in Hg. specialize (Hg eq_refl).
  destruct (quicksight.Create_Group resp) as [group |]; [| congruence].
  cbv zeta. set (d1 := schema.SetId d _).
  destruct (read_returns svc d1 meta w1 Hdescribe)
    as (d' & diags & w' & t & -> & Hdiags & Ht).
  exists d', diags, w', t. repeat split; assumption.
Qed.

Lemma create_returns_if_sound_witness :
  let d := sampleData EmptyString false (<["group_name" := "tf-group"]> ∅) in
  exists d' diags w' t,
    exec (answers None None None None) (resourceGroupCreate d sampleMeta) tt
    = (Returned (d', diags), w', createRequest d sampleMeta :: t)
    /\ (length t <= 1)%nat /\ (length diags <= 1)%nat.
Proof.
  intros d.
  refine (create_returns_if_sound (answers None None None None) tt d sampleMeta
            eq_refl _ _).
  - intros input w _. simpl. discriminate.
  - intros input w _. simpl. discriminate.
Defined.

(** ** More on validation *)

